(** * PomodoroPal: the background timer controller

    A shallow embedding of [src/extension/background/background.js]: the
    global [timerState] object, the Chrome facilities the service worker
    touches ([chrome.storage.local], [chrome.alarms],
    [chrome.declarativeNetRequest], [chrome.notifications], the badge, the
    [fetch] to the Flask backend) and every listener and function of the
    script, followed by the properties of the timer state machine and of the
    site-blocking policy.

    Conventions.
    - JavaScript numbers are modelled by [JS.num]: a mathematical integer or
      [NaN].  Every number the script computes is an integer (minutes times
      60, a floor, a decrement) or [NaN], and doubles are exact on the
      integers that occur (epoch milliseconds and second counts).
    - Each listener runs to completion on one reading [now] of [Date.now()]
      (and [new Date()]); the reading is an argument of the listener.
    - An ISO-8601 string produced by [toISOString] is represented by the
      time value it renders.
    - [function] declarations are hoisted and a later declaration of the same
      name replaces the earlier one, so [startTimer], [pauseTimer] and
      [completeTimer] are the second declarations (lines 371-452);
      [resetTimer], [switchMode] and [resumeTimer] are declared once.
    - The callbacks of [chrome.storage.local.get] and [getDynamicRules] read
      [timerState] after the listener that scheduled them has returned, and
      are taken to run before the next event is handled; no listener writes
      [timerState] after calling [updateBlockingRules], so running the
      callback at the call site reads the same values. *)

From Stdlib Require Import ZArith String Ascii List Bool Lia DecimalString.
Import ListNotations.
Open Scope string_scope.
Open Scope list_scope.
Open Scope Z_scope.

(** Statements of a function body are applied left to right. *)
Notation "w |> f" := (f w) (at level 50, left associativity, only parsing).

(** ** JavaScript values *)

Module JS.

(** A number: an integer or [NaN]. *)
Inductive num : Type :=
| Int (z : Z)
| NaN.

(** The result of a property read [obj[key]] on an object literal: one of
    its own properties, a member inherited from [Object.prototype] (a
    built-in function, or the prototype itself for [__proto__]), or
    [undefined]. *)
Inductive prop (A : Type) : Type :=
| Own (a : A)
| Inherited
| Undefined.
Arguments Own {A} a.
Arguments Inherited {A}.
Arguments Undefined {A}.

Definition ObjectPrototype : list string :=
  [ "constructor"; "hasOwnProperty"; "isPrototypeOf";
    "propertyIsEnumerable"; "toLocaleString"; "toString"; "valueOf";
    "__proto__"; "__defineGetter__"; "__defineSetter__";
    "__lookupGetter__"; "__lookupSetter__" ].

Fixpoint own {A : Type} (obj : list (string * A)) (key : string) : option A :=
  match obj with
  | [] => None
  | (k, a) :: rest => if String.eqb k key then Some a else own rest key
  end.

(** [obj[key]] *)
Definition get {A : Type} (obj : list (string * A)) (key : string) : prop A :=
  match own obj key with
  | Some a => Own a
  | None =>
      if existsb (String.eqb key) ObjectPrototype then Inherited else Undefined
  end.

(** ToNumber of a property read whose own values are numbers.
    [undefined] converts to [NaN]; the inherited members convert through
    their string form, which is not a numeric literal, to [NaN]. *)
Definition ToNumber (v : prop Z) : num :=
  match v with
  | Own z => Int z
  | Inherited => NaN
  | Undefined => NaN
  end.

(** ToNumber of a field holding [null] or a number ([null] converts to 0);
    also the time value of [new Date(v)]. *)
Definition timeValue (v : option Z) : Z :=
  match v with
  | Some t => t
  | None => 0
  end.

(** ToBoolean of a field holding [null] or a number. *)
Definition truthy (v : option Z) : bool :=
  match v with
  | Some t => negb (t =? 0)
  | None => false
  end.

Definition mul (a b : num) : num :=
  match a, b with
  | Int x, Int y => Int (x * y)
  | _, _ => NaN
  end.

Definition sub (a b : num) : num :=
  match a, b with
  | Int x, Int y => Int (x - y)
  | _, _ => NaN
  end.

(** [Math.max(a, b)]: [NaN] as soon as one argument is. *)
Definition Math_max (a b : num) : num :=
  match a, b with
  | Int x, Int y => Int (Z.max x y)
  | _, _ => NaN
  end.

(** [Math.floor(a / d)] for a positive integer [d]. *)
Definition Math_floor_div (a : Z) (d : Z) : Z := a / d.

(** [Math.ceil(a / d)] for a positive integer [d]. *)
Definition Math_ceil_div (a : num) (d : Z) : num :=
  match a with
  | Int x => Int (- ((- x) / d))
  | NaN => NaN
  end.

(** [a > b] and [a <= b]: false when an operand is [NaN]. *)
Definition gt (a b : num) : bool :=
  match a, b with
  | Int x, Int y => x >? y
  | _, _ => false
  end.

Definition le (a b : num) : bool :=
  match a, b with
  | Int x, Int y => x <=? y
  | _, _ => false
  end.

(** [xs.map((x, index) => f(x, index))] *)
Fixpoint mapi_from {A B : Type} (i : Z) (f : A -> Z -> B) (xs : list A) : list B :=
  match xs with
  | [] => []
  | x :: rest => f x i :: mapi_from (i + 1) f rest
  end.

Definition mapi {A B : Type} (f : A -> Z -> B) (xs : list A) : list B :=
  mapi_from 0 f xs.

End JS.

Import JS.

(** ** Data *)

(** [timerState] *)
Record TimerState : Type := mkTimerState {
  mode : string;
  timeRemaining : num;
  isRunning : bool;
  startedAt : option Z;
  pausedAt : option Z
}.

(** The body of [POST /sessions]. *)
Record SessionData : Type := mkSessionData {
  session_type : string;
  duration_minutes : prop Z;
  completed : bool;
  started_at : Z;
  ended_at : Z
}.

(** A dynamic rule of [chrome.declarativeNetRequest]. *)
Record Rule : Type := mkRule {
  id : Z;
  priority : Z;
  action_type : string;
  extensionPath : string;
  urlFilter : string;
  resourceTypes : list string
}.

(** The argument of [chrome.notifications.create]; [message] is the result
    of [messages[mode] || 'Timer completed!']. *)
Record Notification : Type := mkNotification {
  title : string;
  message : prop string;
  requireInteraction : bool
}.

(** The keys of [chrome.storage.local] the script reads; [None] is a key
    that was never written.  [saveState] is the only writer of [timerState]
    and writes all five fields. *)
Record Storage : Type := mkStorage {
  stored_timerState : option TimerState;
  stored_blockingEnabled : option bool;
  stored_blockDuringWork : option bool;
  stored_blockedSites : option (list string)
}.

(** The service worker's global and the browser state it acts on. *)
Record World : Type := mkWorld {
  timerState : TimerState;
  storage : Storage;
  alarm : bool;                      (* the alarm 'pomodoroTimer' exists *)
  dynamicRules : list Rule;
  posted : list SessionData;         (* requests sent to the backend *)
  notifications : list Notification;
  badgeText : option num;            (* [None] is the empty text *)
  badgeColor : option string
}.

(** The message of [chrome.runtime.onMessage]. *)
Module request.
Record t : Type := mk { action : string; mode : string }.
End request.

(** What [sendResponse] is given. *)
Inductive Response : Type :=
| State (s : TimerState)
| Error (error : string).

(** ** Assignments *)

Definition set_timerState (s : TimerState) (w : World) : World :=
  mkWorld s (storage w) (alarm w) (dynamicRules w) (posted w)
          (notifications w) (badgeText w) (badgeColor w).

Definition set_mode (m : string) (w : World) : World :=
  let s := timerState w in
  set_timerState
    (mkTimerState m (timeRemaining s) (isRunning s) (startedAt s) (pausedAt s)) w.

Definition set_timeRemaining (n : num) (w : World) : World :=
  let s := timerState w in
  set_timerState
    (mkTimerState (mode s) n (isRunning s) (startedAt s) (pausedAt s)) w.

Definition set_isRunning (b : bool) (w : World) : World :=
  let s := timerState w in
  set_timerState
    (mkTimerState (mode s) (timeRemaining s) b (startedAt s) (pausedAt s)) w.

Definition set_startedAt (t : option Z) (w : World) : World :=
  let s := timerState w in
  set_timerState
    (mkTimerState (mode s) (timeRemaining s) (isRunning s) t (pausedAt s)) w.

Definition set_pausedAt (t : option Z) (w : World) : World :=
  let s := timerState w in
  set_timerState
    (mkTimerState (mode s) (timeRemaining s) (isRunning s) (startedAt s) t) w.

(** ** Chrome *)

Module chrome.

(** [chrome.alarms.create('pomodoroTimer', ...)] *)
Definition alarms_create (w : World) : World :=
  mkWorld (timerState w) (storage w) true (dynamicRules w) (posted w)
          (notifications w) (badgeText w) (badgeColor w).

(** [chrome.alarms.clear('pomodoroTimer')] *)
Definition alarms_clear (w : World) : World :=
  mkWorld (timerState w) (storage w) false (dynamicRules w) (posted w)
          (notifications w) (badgeText w) (badgeColor w).

(** [chrome.storage.local.set({ timerState })] *)
Definition storage_set_timerState (w : World) : World :=
  let st := storage w in
  mkWorld (timerState w)
          (mkStorage (Some (timerState w)) (stored_blockingEnabled st)
                     (stored_blockDuringWork st) (stored_blockedSites st))
          (alarm w) (dynamicRules w) (posted w)
          (notifications w) (badgeText w) (badgeColor w).

(** [chrome.declarativeNetRequest.updateDynamicRules({removeRuleIds, addRules})] *)
Definition updateDynamicRules (removeRuleIds : list Z) (addRules : list Rule)
           (w : World) : World :=
  let kept :=
    filter (fun r => negb (existsb (Z.eqb (id r)) removeRuleIds)) (dynamicRules w) in
  mkWorld (timerState w) (storage w) (alarm w) (kept ++ addRules) (posted w)
          (notifications w) (badgeText w) (badgeColor w).

(** [chrome.notifications.create(n)] *)
Definition notifications_create (n : Notification) (w : World) : World :=
  mkWorld (timerState w) (storage w) (alarm w) (dynamicRules w) (posted w)
          (notifications w ++ [n]) (badgeText w) (badgeColor w).

(** [chrome.action.setBadgeText({ text })] *)
Definition setBadgeText (text : option num) (w : World) : World :=
  mkWorld (timerState w) (storage w) (alarm w) (dynamicRules w) (posted w)
          (notifications w) text (badgeColor w).

(** [chrome.action.setBadgeBackgroundColor({ color })] *)
Definition setBadgeBackgroundColor (color : string) (w : World) : World :=
  mkWorld (timerState w) (storage w) (alarm w) (dynamicRules w) (posted w)
          (notifications w) (badgeText w) (Some color).

End chrome.

(** ** The script *)

Definition TIMER_CONFIG : list (string * Z) :=
  [ ("pomodoro", 25); ("shortBreak", 5); ("longBreak", 15) ].

(** The initializer of [timerState]. *)
Definition initial_timerState : TimerState :=
  {| mode := "pomodoro";
     timeRemaining := mul (ToNumber (get TIMER_CONFIG "pomodoro")) (Int 60);
     isRunning := false;
     startedAt := None;
     pausedAt := None |}.

Definition saveState (w : World) : World :=
  chrome.storage_set_timerState w.

(** The request is issued and its outcome is only logged. *)
Definition saveSessionToBackend (sessionData : SessionData) (w : World) : World :=
  mkWorld (timerState w) (storage w) (alarm w) (dynamicRules w)
          (posted w ++ [sessionData])
          (notifications w) (badgeText w) (badgeColor w).

Definition default_blockedSites : list string :=
  [ "facebook.com"; "x.com"; "instagram.com"; "youtube.com"; "reddit.com";
    "tiktok.com" ].

Definition enableBlocking (sites : list string) (w : World) : World :=
  let rules :=
    mapi (fun site index =>
            {| id := index + 1;
               priority := 1;
               action_type := "redirect";
               extensionPath := "/blocked/blocked.html";
               urlFilter := "*://*." ++ site ++ "/*";
               resourceTypes := ["main_frame"] |}) sites in
  let additionalRules :=
    mapi (fun site index =>
            {| id := Z.of_nat (length sites) + index + 1;
               priority := 1;
               action_type := "redirect";
               extensionPath := "/blocked/blocked.html";
               urlFilter := "*://" ++ site ++ "/*";
               resourceTypes := ["main_frame"] |}) sites in
  let allRules := (rules ++ additionalRules)%list in
  let ruleIds := map id (dynamicRules w) in
  chrome.updateDynamicRules ruleIds allRules w.

Definition disableBlocking (w : World) : World :=
  let ruleIds := map id (dynamicRules w) in
  if (0 <? Z.of_nat (length ruleIds))
  then chrome.updateDynamicRules ruleIds [] w
  else w.

(** The three settings as [updateBlockingRules] reads them. *)
Definition blockingEnabled (w : World) : bool :=
  match stored_blockingEnabled (storage w) with
  | Some b => b
  | None => true
  end.

Definition blockDuringWork (w : World) : bool :=
  match stored_blockDuringWork (storage w) with
  | Some b => b
  | None => true
  end.

Definition blockedSites (w : World) : list string :=
  match stored_blockedSites (storage w) with
  | Some sites => sites
  | None => default_blockedSites
  end.

Definition shouldBlock (w : World) : bool :=
  blockingEnabled w && isRunning (timerState w)
  && (negb (blockDuringWork w) || String.eqb (mode (timerState w)) "pomodoro").

Definition updateBlockingRules (w : World) : World :=
  if shouldBlock w
  then enableBlocking (blockedSites w) w
  else disableBlocking w.

Definition startTimer (now : Z) (w : World) : World :=
  if isRunning (timerState w) then w else
  w |> set_isRunning true
    |> set_startedAt (Some now)
    |> chrome.alarms_create
    |> updateBlockingRules
    |> saveState.

Definition pauseTimer (now : Z) (w : World) : World :=
  if negb (isRunning (timerState w)) then w else
  w |> set_isRunning false
    |> set_pausedAt (Some now)
    |> chrome.alarms_clear
    |> updateBlockingRules
    |> saveState.

Definition resetTimer (now : Z) (w : World) : World :=
  let s := timerState w in
  (if isRunning s && truthy (startedAt s)
   then saveSessionToBackend
          {| session_type := mode s;
             duration_minutes := get TIMER_CONFIG (mode s);
             completed := false;
             started_at := timeValue (startedAt s);
             ended_at := now |} w
   else w)
    |> set_isRunning false
    |> set_timeRemaining (mul (ToNumber (get TIMER_CONFIG (mode s))) (Int 60))
    |> set_startedAt None
    |> set_pausedAt None
    |> chrome.alarms_clear
    |> saveState.

Definition switchMode (newMode : string) (w : World) : World :=
  if isRunning (timerState w) then w else
  w |> set_mode newMode
    |> set_timeRemaining (mul (ToNumber (get TIMER_CONFIG newMode)) (Int 60))
    |> set_startedAt None
    |> set_pausedAt None
    |> saveState.

Definition messages : list (string * string) :=
  [ ("pomodoro", "Work session completed! You deserve a break.");
    ("shortBreak", "Break finished! Ready to focus again?");
    ("longBreak", "Long break finished! Ready for another session?") ].

(** [messages[mode] || 'Timer completed!']: the three texts are non-empty
    and an inherited member is an object, all truthy. *)
Definition notificationMessage (m : string) : prop string :=
  match get messages m with
  | Undefined => Own "Timer completed!"
  | found => found
  end.

Definition nextMode (m : string) : string :=
  if String.eqb m "pomodoro" then "shortBreak" else "pomodoro".

Definition completeTimer (now : Z) (w : World) : World :=
  let s := timerState w in
  let sessionEndTime := now in
  let sessionStartTime := timeValue (startedAt s) in
  let sessionData :=
    {| session_type := mode s;
       duration_minutes := get TIMER_CONFIG (mode s);
       completed := true;
       started_at := sessionStartTime;
       ended_at := sessionEndTime |} in
  w |> saveSessionToBackend sessionData
    |> set_isRunning false
    |> set_timeRemaining (Int 0)
    |> chrome.alarms_clear
    |> chrome.notifications_create
         {| title := "PomodoroPal";
            message := notificationMessage (mode s);
            requireInteraction := true |}
    |> chrome.setBadgeText None
    |> switchMode (nextMode (mode s))
    |> updateBlockingRules
    |> saveState.

(** The value [resumeTimer] assigns to [timerState.timeRemaining]. *)
Definition reconciled (now : Z) (s : TimerState) : num :=
  let elapsed := Math_floor_div (now - timeValue (startedAt s)) 1000 in
  let originalTime := mul (ToNumber (get TIMER_CONFIG (mode s))) (Int 60) in
  Math_max (Int 0) (sub originalTime (Int elapsed)).

Definition resumeTimer (now : Z) (w : World) : World :=
  if negb (isRunning (timerState w)) then w else
  let w1 := set_timeRemaining (reconciled now (timerState w)) w in
  if gt (timeRemaining (timerState w1)) (Int 0)
  then chrome.alarms_create w1
  else completeTimer now w1.

(** ** Listeners *)

(** [chrome.runtime.onInstalled], first listener: the stored snapshot is
    spread over the in-memory one; it carries all five fields. *)
Definition onInstalled_timerState (now : Z) (w : World) : World :=
  match stored_timerState (storage w) with
  | Some loaded =>
      let w1 := set_timerState loaded w in
      if isRunning (timerState w1) && truthy (startedAt (timerState w1))
      then resumeTimer now w1
      else w1
  | None => w
  end.

(** [chrome.runtime.onInstalled], second listener: existing rules are
    removed. *)
Definition onInstalled_blocking (w : World) : World :=
  let ruleIds := map id (dynamicRules w) in
  if (0 <? Z.of_nat (length ruleIds))
  then chrome.updateDynamicRules ruleIds [] w
  else w.

(** [chrome.runtime.onMessage] *)
Definition onMessage (now : Z) (r : request.t) (w : World) : World * Response :=
  let a := request.action r in
  if String.eqb a "GET_STATE" then (w, State (timerState w))
  else if String.eqb a "START_TIMER" then
    let w' := startTimer now w in (w', State (timerState w'))
  else if String.eqb a "PAUSE_TIMER" then
    let w' := pauseTimer now w in (w', State (timerState w'))
  else if String.eqb a "RESET_TIMER" then
    let w' := resetTimer now w in (w', State (timerState w'))
  else if String.eqb a "SWITCH_MODE" then
    let w' := switchMode (request.mode r) w in (w', State (timerState w'))
  else (w, Error "Unknown action").

(** [chrome.alarms.onAlarm] *)
Definition onAlarm (now : Z) (name : string) (w : World) : World :=
  if String.eqb name "pomodoroTimer" && isRunning (timerState w) then
    let w1 := set_timeRemaining (sub (timeRemaining (timerState w)) (Int 1)) w in
    (if le (timeRemaining (timerState w1)) (Int 0)
     then completeTimer now w1
     else
       let minutes := Math_ceil_div (timeRemaining (timerState w1)) 60 in
       w1 |> chrome.setBadgeText (Some minutes)
          |> chrome.setBadgeBackgroundColor "#FF6347")
      |> saveState
  else w.

(** A write of the settings page to one of the three keys. *)
Inductive Setting : Type :=
| BlockingEnabled (b : bool)
| BlockDuringWork (b : bool)
| BlockedSites (sites : list string).

Definition storage_set_setting (c : Setting) (w : World) : World :=
  let st := storage w in
  let st' :=
    match c with
    | BlockingEnabled b =>
        mkStorage (stored_timerState st) (Some b)
                  (stored_blockDuringWork st) (stored_blockedSites st)
    | BlockDuringWork b =>
        mkStorage (stored_timerState st) (stored_blockingEnabled st)
                  (Some b) (stored_blockedSites st)
    | BlockedSites sites =>
        mkStorage (stored_timerState st) (stored_blockingEnabled st)
                  (stored_blockDuringWork st) (Some sites)
    end in
  mkWorld (timerState w) st' (alarm w) (dynamicRules w) (posted w)
          (notifications w) (badgeText w) (badgeColor w).

(** [chrome.storage.onChanged], for a change of one of the three keys. *)
Definition onChanged (w : World) : World :=
  updateBlockingRules w.

(** ** Runs of the service worker *)

(** What can happen to the worker: a message from a page, an alarm, the
    [onInstalled] event (both listeners), a settings write observed through
    [onChanged], and the worker being stopped and started again, which
    evaluates the script anew ([timerState] is its initializer) while the
    storage, the alarm and the dynamic rules stay. *)
Inductive Event : Type :=
| Message (r : request.t)
| AlarmFired (name : string)
| Installed
| SettingChanged (c : Setting)
| Restarted.

Definition handle (now : Z) (e : Event) (w : World) : World :=
  match e with
  | Message r => fst (onMessage now r w)
  | AlarmFired name => onAlarm now name w
  | Installed => w |> onInstalled_timerState now |> onInstalled_blocking
  | SettingChanged c => w |> storage_set_setting c |> onChanged
  | Restarted => set_timerState initial_timerState w
  end.

(** A run: events in order, each with the clock reading of its listener. *)
Fixpoint run (events : list (Z * Event)) (w : World) : World :=
  match events with
  | [] => w
  | (now, e) :: rest => run rest (handle now e w)
  end.

(** The extension as first installed: the script's initial [timerState],
    nothing stored, no alarm, no rule. *)
Definition firstInstall : World :=
  {| timerState := initial_timerState;
     storage := mkStorage None None None None;
     alarm := false;
     dynamicRules := [];
     posted := [];
     notifications := [];
     badgeText := None;
     badgeColor := None |}.

(** * The pages *)

(** ** The settings page ([popup/settings.js]) *)

Module settings.

(** The literal bound to [DEFAULT_BLOCKED_SITES]. *)
Definition DEFAULT_BLOCKED_SITES_literal : list string :=
  [ "facebook.com"; "instagram.com"; "reddit.com"; "tiktok.com"; "x.com";
    "youtube.com" ].

(** The state of the page script: the array [DEFAULT_BLOCKED_SITES] (a
    [const] binding, but [addSite] and [removeSite] push to and splice the
    array they read, which is this one when the storage has no list).  What
    the script writes into the document ([displaySites], the text of the
    input, the checkboxes of [loadSettings]) goes through the HTML parser
    of the browser and is not part of this model. *)
Record Page : Type := mkPage {
  DEFAULT_BLOCKED_SITES : list string
}.

(** The rest of [s] after the literal prefix [p], if [s] starts with it. *)
Fixpoint afterPrefix (p s : string) : option string :=
  match p, s with
  | EmptyString, _ => Some s
  | String a p', String b s' => if Ascii.eqb a b then afterPrefix p' s' else None
  | String _ _, EmptyString => None
  end.

(** [s.replace(/^https?:\/\//, '')] *)
Definition replace_scheme (s : string) : string :=
  match afterPrefix "https://" s with
  | Some rest => rest
  | None =>
      match afterPrefix "http://" s with
      | Some rest => rest
      | None => s
      end
  end.

(** [s.replace(/^www\./, '')] *)
Definition replace_www (s : string) : string :=
  match afterPrefix "www." s with
  | Some rest => rest
  | None => s
  end.

(** [s.split('/')[0]] *)
Fixpoint split_slash_0 (s : string) : string :=
  match s with
  | EmptyString => EmptyString
  | String a rest =>
      if Ascii.eqb a "/" then EmptyString else String a (split_slash_0 rest)
  end.

(** The constant [cleanSite] of [addSite]. *)
Definition cleanSite (site : string) : string :=
  split_slash_0 (replace_www (replace_scheme site)).

(** [sites.includes(x)] *)
Definition includes (sites : list string) (x : string) : bool :=
  existsb (String.eqb x) sites.

(** [sites.indexOf(x)] *)
Fixpoint indexOf_from (i : Z) (sites : list string) (x : string) : Z :=
  match sites with
  | [] => -1
  | y :: rest => if String.eqb y x then i else indexOf_from (i + 1) rest x
  end.

Definition indexOf (sites : list string) (x : string) : Z :=
  indexOf_from 0 sites x.

(** [sites.splice(index, 1)] for an index within the array: what is left
    in the array. *)
Definition splice_1 (index : Z) (sites : list string) : list string :=
  (firstn (Z.to_nat index) sites ++ skipn (Z.to_nat index + 1) sites)%list.

(** [chrome.storage.local.set({ blockedSites: sites })] *)
Definition storage_set_blockedSites (sites : list string) (w : World) : World :=
  storage_set_setting (BlockedSites sites) w.

(** [addSite], where [site] is [input.value.trim().toLowerCase()].  The
    array [sites] is the one read from the storage or, when the storage has
    none, [DEFAULT_BLOCKED_SITES] itself, which the push then changes.  The
    callback of the write only touches the document. *)
Definition addSite (site : string) (p : Page) (w : World) : Page * World :=
  if String.eqb site "" then (p, w) else
  let cleanSite := cleanSite site in
  match stored_blockedSites (storage w) with
  | Some sites =>
      if negb (includes sites cleanSite) then
        let sites := (sites ++ [cleanSite])%list in
        (p, storage_set_blockedSites sites w)
      else (p, w)
  | None =>
      let sites := DEFAULT_BLOCKED_SITES p in
      if negb (includes sites cleanSite) then
        let sites := (sites ++ [cleanSite])%list in
        (mkPage sites, storage_set_blockedSites sites w)
      else (p, w)
  end.

(** [removeSite]; the callback of the write only touches the document. *)
Definition removeSite (site : string) (p : Page) (w : World) : Page * World :=
  match stored_blockedSites (storage w) with
  | Some sites =>
      let index := indexOf sites site in
      if index >? -1 then
        let sites := splice_1 index sites in
        (p, storage_set_blockedSites sites w)
      else (p, w)
  | None =>
      let sites := DEFAULT_BLOCKED_SITES p in
      let index := indexOf sites site in
      if index >? -1 then
        let sites := splice_1 index sites in
        (mkPage sites, storage_set_blockedSites sites w)
      else (p, w)
  end.

(** [saveSetting(key, value)] for the two toggles. *)
Definition saveSetting_blockingEnabled (value : bool) (w : World) : World :=
  storage_set_setting (BlockingEnabled value) w.

Definition saveSetting_blockDuringWork (value : bool) (w : World) : World :=
  storage_set_setting (BlockDuringWork value) w.

(** The state of the page script when the page is loaded. *)
Definition initialPage : Page :=
  mkPage DEFAULT_BLOCKED_SITES_literal.

End settings.

(** ** The popup ([popup/popup.js]) and the blocked page ([blocked.js]) *)

(** [String(n)] for an integer or [NaN]. *)
Definition String_of_num (n : num) : string :=
  match n with
  | Int z => NilZero.string_of_int (Z.to_int z)
  | NaN => "NaN"
  end.

(** [s.padStart(2, '0')] *)
Definition padStart_2_0 (s : string) : string :=
  match s with
  | EmptyString => "00"
  | String a EmptyString => String "0" (String a EmptyString)
  | _ => s
  end.

(** [Math.floor(n / 60)] and [n % 60]; the remainder has the sign of [n]. *)
Definition floor_div_60 (n : num) : num :=
  match n with
  | Int z => Int (Math_floor_div z 60)
  | NaN => NaN
  end.

Definition rem_60 (n : num) : num :=
  match n with
  | Int z => Int (Z.rem z 60)
  | NaN => NaN
  end.

Module popup.

(** What [updateDisplay] writes: the two texts of the countdown, which of
    the two buttons is shown, and the title of the document. *)
Record Display : Type := mkDisplay {
  minutes_textContent : string;
  seconds_textContent : string;
  startBtn_shown : bool;
  pauseBtn_shown : bool;
  document_title : string
}.

(** [updateDisplay], for a [currentState] that is a snapshot; with no state
    yet it writes nothing. *)
Definition updateDisplay (currentState : option TimerState) : option Display :=
  match currentState with
  | None => None
  | Some s =>
      let minutes := floor_div_60 (timeRemaining s) in
      let seconds := rem_60 (timeRemaining s) in
      Some {| minutes_textContent := padStart_2_0 (String_of_num minutes);
              seconds_textContent := padStart_2_0 (String_of_num seconds);
              startBtn_shown := negb (isRunning s);
              pauseBtn_shown := isRunning s;
              document_title :=
                String_of_num minutes ++ ":"
                ++ padStart_2_0 (String_of_num seconds) ++ " - PomodoroPal" |}
  end.

End popup.

Module blocked.

(** [updateTimer(seconds)]: the text of [#timer]. *)
Definition updateTimer (seconds : num) : string :=
  let minutes := floor_div_60 seconds in
  let secs := rem_60 seconds in
  padStart_2_0 (String_of_num minutes) ++ ":" ++ padStart_2_0 (String_of_num secs).

(** The callback of the first [GET_STATE]: the text of [#timer]. *)
Definition onState (response : Response) : string :=
  match response with
  | State s =>
      if isRunning s then updateTimer (timeRemaining s) else "No active session"
  | Error _ => "No active session"
  end.

End blocked.

(** ** The dashboard: the chart of session types *)

Module dashboard.

(** [typeCounts] as [createSessionTypesChart] initializes it. *)
Definition typeCounts_initial : list (string * Z) :=
  [ ("pomodoro", 0); ("shortBreak", 0); ("longBreak", 0) ].

(** [obj.hasOwnProperty(key)] *)
Definition hasOwnProperty (obj : list (string * Z)) (key : string) : bool :=
  match own obj key with
  | Some _ => true
  | None => false
  end.

(** [obj[key]++] for an own key. *)
Fixpoint increment (obj : list (string * Z)) (key : string) : list (string * Z) :=
  match obj with
  | [] => []
  | (k, v) :: rest =>
      if String.eqb k key then (k, v + 1) :: rest
      else (k, v) :: increment rest key
  end.

(** The loop over the sessions. *)
Fixpoint countTypes (sessions : list SessionData) (typeCounts : list (string * Z))
  : list (string * Z) :=
  match sessions with
  | [] => typeCounts
  | session :: rest =>
      countTypes rest
        (if hasOwnProperty typeCounts (session_type session)
         then increment typeCounts (session_type session)
         else typeCounts)
  end.

(** The data of the doughnut chart. *)
Definition createSessionTypesChart (sessions : list SessionData) : list (prop Z) :=
  let typeCounts := countTypes sessions typeCounts_initial in
  [ get typeCounts "pomodoro"; get typeCounts "shortBreak";
    get typeCounts "longBreak" ].

End dashboard.

(** * Vocabulary of the properties *)

(** ** Modes, durations and the range invariant *)

(** The three keys of [TIMER_CONFIG]. *)
Definition recognized (m : string) : Prop :=
  m = "pomodoro" \/ m = "shortBreak" \/ m = "longBreak".

(** [TIMER_CONFIG[m] * 60], the nominal duration of a mode in seconds. *)
Definition durationSeconds (m : string) : num :=
  mul (ToNumber (get TIMER_CONFIG m)) (Int 60).

(** The range invariant of the snapshot: an integer between 0 and the
    nominal duration of the current mode. *)
Definition inRange (s : TimerState) : Prop :=
  match timeRemaining s, durationSeconds (mode s) with
  | Int z, Int n => 0 <= z <= n
  | _, _ => False
  end.

(** The five actions [onMessage] knows. *)
Definition actions : list string :=
  [ "GET_STATE"; "START_TIMER"; "PAUSE_TIMER"; "RESET_TIMER"; "SWITCH_MODE" ].

(** ** Rules, records and notifications *)

(** The two rules [enableBlocking] builds for a site, up to their ids: the
    any-subdomain rule and the bare-domain rule. *)
Definition subdomainRule (site : string) (i : Z) : Rule :=
  {| id := i; priority := 1; action_type := "redirect";
     extensionPath := "/blocked/blocked.html";
     urlFilter := "*://*." ++ site ++ "/*";
     resourceTypes := ["main_frame"] |}.

Definition bareRule (site : string) (i : Z) : Rule :=
  {| id := i; priority := 1; action_type := "redirect";
     extensionPath := "/blocked/blocked.html";
     urlFilter := "*://" ++ site ++ "/*";
     resourceTypes := ["main_frame"] |}.

(** The rule set a recomputation installs: a function of the snapshot and
    of the settings, not of the rules in place. *)
Definition recomputed (w : World) : list Rule :=
  if shouldBlock w
  then (mapi (fun site index => subdomainRule site (index + 1)) (blockedSites w)
        ++ mapi (fun site index =>
                   bareRule site (Z.of_nat (length (blockedSites w)) + index + 1))
                (blockedSites w))%list
  else [].

(** The record [resetTimer] posts for an abandoned run. *)
Definition abandoned (now : Z) (s : TimerState) : SessionData :=
  {| session_type := mode s;
     duration_minutes := get TIMER_CONFIG (mode s);
     completed := false;
     started_at := timeValue (startedAt s);
     ended_at := now |}.

(** The record and the notification of [completeTimer]. *)
Definition finished (now : Z) (s : TimerState) : SessionData :=
  {| session_type := mode s;
     duration_minutes := get TIMER_CONFIG (mode s);
     completed := true;
     started_at := timeValue (startedAt s);
     ended_at := now |}.

Definition completion (s : TimerState) : Notification :=
  {| title := "PomodoroPal";
     message := notificationMessage (mode s);
     requireInteraction := true |}.

(** ** Runs *)





(** ** Sample worlds and runs *)

(** [n] alarms, one second apart, after the reading [from]. *)
Definition ticks (from : Z) (n : nat) : list (Z * Event) :=
  map (fun k => (from + 1000 * Z.of_nat k, AlarmFired "pomodoroTimer"))
      (seq 1 n).

(** A work session started at 10000 on a fresh install, default settings. *)
Definition runningWork : World :=
  run [(10000, Message (request.mk "START_TIMER" ""))] firstInstall.

(** That session with one second left. *)
Definition lastSecond : World := set_timeRemaining (Int 1) runningWork.

(** That session after the worker was stopped and started again. *)
Definition reactivated : World := handle 0 Restarted runningWork.

(** A work session started after blocking was switched off on the settings
    page. *)
Definition blockingOff : World :=
  run [ (1000, SettingChanged (BlockingEnabled false));
        (10000, Message (request.mk "START_TIMER" "")) ] firstInstall.

(** A short break started after the settings page stored one site and
    switched off the restriction to work sessions. *)
Definition breakBlocked : World :=
  run [ (1000, SettingChanged (BlockedSites ["news.example"]));
        (2000, SettingChanged (BlockDuringWork false));
        (3000, Message (request.mk "SWITCH_MODE" "shortBreak"));
        (10000, Message (request.mk "START_TIMER" "")) ] firstInstall.

(** A short break started with the default settings. *)
Definition breakUnblocked : World :=
  run [ (3000, Message (request.mk "SWITCH_MODE" "shortBreak"));
        (10000, Message (request.mk "START_TIMER" "")) ] firstInstall.

(** A work session started at 1000, paused after three ticks. *)
Definition pausedWork : World :=
  run ((1000, Message (request.mk "START_TIMER" "")) :: ticks 1000 3
       ++ [(4500, Message (request.mk "PAUSE_TIMER" ""))]) firstInstall.

(** A run with a pause, a mode switch, a restart of the worker and a
    reactivation, on a clock that moves forward. *)
Definition sampleRun : list (Z * Event) :=
  [ (1000, Message (request.mk "START_TIMER" ""));
    (2000, AlarmFired "pomodoroTimer");
    (3000, Message (request.mk "PAUSE_TIMER" ""));
    (4000, Message (request.mk "SWITCH_MODE" "longBreak"));
    (5000, Message (request.mk "START_TIMER" ""));
    (6000, Restarted);
    (250000, Installed);
    (251000, AlarmFired "pomodoroTimer") ].

(** ** Vocabulary of the further properties *)

(** Every event of a list is the alarm of the timer. *)
Definition alarmsOnly (events : list (Z * Event)) : Prop :=
  Forall (fun te => snd te = AlarmFired "pomodoroTimer") events.

(** The events of a worker that stays alive and is not reinstalled:
    messages, alarms and settings changes. *)
Definition routine (e : Event) : Prop :=
  match e with
  | Message _ | AlarmFired _ | SettingChanged _ => True
  | Installed | Restarted => False
  end.

(** A routine event other than a RESET_TIMER message. *)
Definition routineNoReset (e : Event) : Prop :=
  match e with
  | Message r => request.action r <> "RESET_TIMER"
  | AlarmFired _ | SettingChanged _ => True
  | Installed | Restarted => False
  end.

(** The storage holds the snapshot in memory; before the first write the
    snapshot in memory is the initializer of the script. *)
Definition persisted (w : World) : Prop :=
  match stored_timerState (storage w) with
  | Some s => s = timerState w
  | None => timerState w = initial_timerState
  end.

(** The integers [a], [a + 1], ..., [a + n - 1]. *)
Definition zseq (a : Z) (n : nat) : list Z :=
  map (fun k => a + Z.of_nat k) (seq 0 n).

(** The three settings as stored. *)
Definition settingsOf (w : World)
  : option bool * option bool * option (list string) :=
  (stored_blockingEnabled (storage w), stored_blockDuringWork (storage w),
   stored_blockedSites (storage w)).

(** ** Vocabulary of the properties of the pages *)

(** A string without the character [/]. *)
Definition noSlash (s : string) : Prop :=
  forall a, In a (list_ascii_of_string s) -> a <> "/"%char.

(** The list of sites the settings page works on: the stored one, or the
    array [DEFAULT_BLOCKED_SITES] of the page. *)
Definition sitesOf (p : settings.Page) (w : World) : list string :=
  match stored_blockedSites (storage w) with
  | Some sites => sites
  | None => settings.DEFAULT_BLOCKED_SITES p
  end.

(** A list without the first occurrence of [x]. *)
Fixpoint removeFirst (x : string) (l : list string) : list string :=
  match l with
  | [] => []
  | y :: rest => if String.eqb y x then rest else y :: removeFirst x rest
  end.

(** The number a decimal text denotes. *)
Definition decimal (s : string) : option Z :=
  option_map Z.of_int (NilZero.int_of_string s).

(** The number of sessions of a type. *)
Definition sessionsOfType (key : string) (sessions : list SessionData) : Z :=
  Z.of_nat (length (filter (fun s => String.eqb (session_type s) key) sessions)).

(** The countdown texts of [z] seconds have two characters each and denote
    minutes and seconds, below 60, that make up [z]. *)
Definition countdownReadsBack (z : Z) : bool :=
  let m := padStart_2_0 (String_of_num (floor_div_60 (Int z))) in
  let s := padStart_2_0 (String_of_num (rem_60 (Int z))) in
  (String.length m =? 2)%nat && (String.length s =? 2)%nat
  && match decimal m, decimal s with
     | Some a, Some b => (0 <=? b) && (b <? 60) && (60 * a + b =? z)
     | _, _ => false
     end.

(** * Properties *)

(** ** Modes and nominal durations *)

Lemma recognized_config (m : string) :
  recognized m ->
  exists minutes, get TIMER_CONFIG m = Own minutes /\ 0 < minutes
                  /\ durationSeconds m = Int (minutes * 60).
Proof.
  intros [-> | [-> | ->]]; eexists; repeat split; reflexivity.
Qed.

Lemma config_recognized (m : string) (minutes : Z) :
  get TIMER_CONFIG m = Own minutes -> recognized m.
Proof.
  unfold get, TIMER_CONFIG, own, recognized.
  destruct (String.eqb_spec "pomodoro" m) as [<- | _]; [now left |].
  destruct (String.eqb_spec "shortBreak" m) as [<- | _]; [now right; left |].
  destruct (String.eqb_spec "longBreak" m) as [<- | _]; [now right; right |].
  destruct (existsb _ _); discriminate.
Qed.

Lemma unrecognized_config (m : string) :
  ~ recognized m -> ToNumber (get TIMER_CONFIG m) = NaN.
Proof.
  intros Hm. destruct (get TIMER_CONFIG m) as [z | |] eqn:E; try reflexivity.
  exfalso. apply Hm. eapply config_recognized. exact E.
Qed.

Lemma durationSeconds_Int (m : string) (n : Z) :
  durationSeconds m = Int n -> recognized m /\ 0 < n.
Proof.
  unfold durationSeconds. intros H.
  destruct (get TIMER_CONFIG m) as [z | |] eqn:E; try discriminate.
  pose proof (config_recognized _ _ E) as Hm. split; [exact Hm |].
  destruct (recognized_config _ Hm) as (z' & E' & Hpos & _).
  rewrite E in E'. injection E' as <-. cbn in H. injection H as <-. lia.
Qed.

Lemma nextMode_recognized (m : string) : recognized (nextMode m).
Proof.
  unfold nextMode, recognized. destruct (String.eqb m "pomodoro"); auto.
Qed.

(** ** What each step leaves alone *)

Section Frames.

Variable w : World.

Lemma saveState_timerState : timerState (saveState w) = timerState w.
Proof. reflexivity. Qed.

Lemma saveState_stored :
  stored_timerState (storage (saveState w)) = Some (timerState w).
Proof. reflexivity. Qed.

Lemma enableBlocking_frame (sites : list string) :
  let w' := enableBlocking sites w in
  timerState w' = timerState w /\ storage w' = storage w
  /\ alarm w' = alarm w /\ posted w' = posted w
  /\ notifications w' = notifications w.
Proof. cbn. repeat split. Qed.

Lemma disableBlocking_frame :
  let w' := disableBlocking w in
  timerState w' = timerState w /\ storage w' = storage w
  /\ alarm w' = alarm w /\ posted w' = posted w
  /\ notifications w' = notifications w.
Proof.
  unfold disableBlocking. destruct (0 <? _); cbn; repeat split.
Qed.

Lemma updateBlockingRules_frame :
  let w' := updateBlockingRules w in
  timerState w' = timerState w /\ storage w' = storage w
  /\ alarm w' = alarm w /\ posted w' = posted w
  /\ notifications w' = notifications w.
Proof.
  unfold updateBlockingRules. destruct (shouldBlock w).
  - apply enableBlocking_frame.
  - apply disableBlocking_frame.
Qed.

End Frames.

Lemma updateBlockingRules_timerState (w : World) :
  timerState (updateBlockingRules w) = timerState w.
Proof. apply updateBlockingRules_frame. Qed.

Lemma updateBlockingRules_storage (w : World) :
  storage (updateBlockingRules w) = storage w.
Proof. apply updateBlockingRules_frame. Qed.

Lemma updateBlockingRules_posted (w : World) :
  posted (updateBlockingRules w) = posted w.
Proof. apply updateBlockingRules_frame. Qed.

Lemma updateBlockingRules_notifications (w : World) :
  notifications (updateBlockingRules w) = notifications w.
Proof. apply updateBlockingRules_frame. Qed.

Lemma updateBlockingRules_alarm (w : World) :
  alarm (updateBlockingRules w) = alarm w.
Proof. apply updateBlockingRules_frame. Qed.

Lemma saveState_storage (w : World) :
  storage (saveState w)
  = mkStorage (Some (timerState w)) (stored_blockingEnabled (storage w))
              (stored_blockDuringWork (storage w)) (stored_blockedSites (storage w)).
Proof. reflexivity. Qed.

Lemma saveState_alarm (w : World) : alarm (saveState w) = alarm w.
Proof. reflexivity. Qed.

Lemma saveState_dynamicRules (w : World) :
  dynamicRules (saveState w) = dynamicRules w.
Proof. reflexivity. Qed.

Lemma saveState_posted (w : World) : posted (saveState w) = posted w.
Proof. reflexivity. Qed.

Lemma saveState_notifications (w : World) :
  notifications (saveState w) = notifications w.
Proof. reflexivity. Qed.

Create Rewrite HintDb world.

#[local] Hint Rewrite
  saveState_timerState saveState_storage saveState_alarm
  saveState_dynamicRules saveState_posted saveState_notifications
  updateBlockingRules_timerState updateBlockingRules_storage
  updateBlockingRules_posted updateBlockingRules_notifications
  updateBlockingRules_alarm : world.

(** Reads a field of the world after the assignments and Chrome calls of a
    function body, stepping over [saveState] and over recomputations of the
    rules. *)
Ltac exec :=
  repeat (autorewrite with world;
          cbn [timerState storage alarm dynamicRules posted notifications
               badgeText badgeColor
               mode timeRemaining isRunning startedAt pausedAt
               stored_timerState stored_blockingEnabled
               stored_blockDuringWork stored_blockedSites
               set_timerState set_mode set_timeRemaining set_isRunning
               set_startedAt set_pausedAt
               chrome.alarms_create chrome.alarms_clear
               chrome.notifications_create
               chrome.setBadgeText chrome.setBadgeBackgroundColor
               saveSessionToBackend negb andb orb fst snd]).

Ltac fields w :=
  destruct w as [[? ? ? ? ?] [? ? ? ?] ? ? ? ? ? ?].

(** ** The rule set *)

Lemma mapi_from_length {A B : Type} (f : A -> Z -> B) (xs : list A) :
  forall i, length (mapi_from i f xs) = length xs.
Proof.
  induction xs as [| x rest IH]; intros i; cbn; [reflexivity |].
  now rewrite IH.
Qed.

Lemma mapi_from_In {A B : Type} (f : A -> Z -> B) (xs : list A) (x : A) :
  In x xs -> forall i, exists j, In (f x j) (mapi_from i f xs).
Proof.
  induction xs as [| y rest IH]; intros Hin i; [contradiction |].
  destruct Hin as [-> | Hin].
  - exists i. now left.
  - destruct (IH Hin (i + 1)) as [j Hj]. exists j. now right.
Qed.

Lemma In_mapi_from {A B : Type} (f : A -> Z -> B) (xs : list A) (b : B) :
  forall i, In b (mapi_from i f xs) -> exists x j, In x xs /\ b = f x j.
Proof.
  induction xs as [| y rest IH]; intros i Hin; [contradiction |].
  destruct Hin as [<- | Hin].
  - exists y, i. split; [now left | reflexivity].
  - destruct (IH _ Hin) as (x & j & Hx & ->). exists x, j.
    split; [now right | reflexivity].
Qed.

(** Removing the ids of all the rules there are removes every rule. *)
Lemma remove_all_ids (rules : list Rule) :
  filter (fun r => negb (existsb (Z.eqb (id r)) (map id rules))) rules = [].
Proof.
  assert (H : forall ids,
             (forall r, In r rules -> In (id r) ids) ->
             filter (fun r => negb (existsb (Z.eqb (id r)) ids)) rules = []).
  { induction rules as [| r rest IH]; intros ids Hids; [reflexivity |].
    cbn. assert (E : existsb (Z.eqb (id r)) ids = true).
    { apply existsb_exists. exists (id r). split.
      - apply Hids. now left.
      - apply Z.eqb_refl. }
    rewrite E. cbn. apply IH. intros r' Hr'. apply Hids. now right. }
  apply H. intros r Hr. now apply in_map.
Qed.

Lemma enableBlocking_rules (sites : list string) (w : World) :
  dynamicRules (enableBlocking sites w)
  = (mapi (fun site index => subdomainRule site (index + 1)) sites
     ++ mapi (fun site index =>
                bareRule site (Z.of_nat (length sites) + index + 1)) sites)%list.
Proof.
  unfold enableBlocking, chrome.updateDynamicRules. cbn [dynamicRules].
  rewrite remove_all_ids. reflexivity.
Qed.

Lemma disableBlocking_rules (w : World) :
  dynamicRules (disableBlocking w) = [].
Proof.
  unfold disableBlocking.
  destruct (0 <? Z.of_nat (length (map id (dynamicRules w)))) eqn:E.
  - unfold chrome.updateDynamicRules. cbn [dynamicRules].
    rewrite remove_all_ids. reflexivity.
  - rewrite length_map in E. destruct (dynamicRules w); [reflexivity |].
    cbn in E. discriminate.
Qed.

Lemma updateBlockingRules_rules (w : World) :
  dynamicRules (updateBlockingRules w) = recomputed w.
Proof.
  unfold updateBlockingRules, recomputed. destruct (shouldBlock w).
  - apply enableBlocking_rules.
  - apply disableBlocking_rules.
Qed.

(** [recomputed] reads the snapshot and the three settings only. *)
Lemma recomputed_ext (w1 w2 : World) :
  timerState w1 = timerState w2 ->
  stored_blockingEnabled (storage w1) = stored_blockingEnabled (storage w2) ->
  stored_blockDuringWork (storage w1) = stored_blockDuringWork (storage w2) ->
  stored_blockedSites (storage w1) = stored_blockedSites (storage w2) ->
  recomputed w1 = recomputed w2.
Proof.
  intros Ht He Hw Hs.
  unfold recomputed, shouldBlock, blockingEnabled, blockDuringWork, blockedSites.
  now rewrite Ht, He, Hw, Hs.
Qed.

(** ** C2: the blocking decision and the rule set it yields *)

(** C2.  The configuration is what the storage holds: blocking is enabled
    unless [blockingEnabled] is stored as false, it is restricted to work
    sessions unless [blockDuringWork] is stored as false, and the sites are
    the stored list or, when none is stored, the six default sites.  A
    recomputation of the blocking rules decides to block exactly when
    blocking is enabled, the timer is running, and either blocking is not
    restricted to work sessions or the mode is the work mode.  When it
    does not block, the rule set it leaves is empty; when it blocks, the
    rule set is the any-subdomain rules of the sites followed by their
    bare-domain rules, numbered from 1: two rules per site, every site has
    both its rules, and every rule is one of these, a redirect of
    main-frame requests to the blocked page. *)
Theorem C2_blocking_policy (w : World) :
  let s := timerState w in
  let enabled :=
    match stored_blockingEnabled (storage w) with
    | Some b => b
    | None => true
    end in
  let workOnly :=
    match stored_blockDuringWork (storage w) with
    | Some b => b
    | None => true
    end in
  let sites :=
    match stored_blockedSites (storage w) with
    | Some sites => sites
    | None => [ "facebook.com"; "x.com"; "instagram.com"; "youtube.com";
                "reddit.com"; "tiktok.com" ]
    end in
  let block :=
    enabled = true /\ isRunning s = true
    /\ (workOnly = false \/ mode s = "pomodoro") in
  let rules := dynamicRules (updateBlockingRules w) in
  (shouldBlock w = true <-> block)
  /\ (~ block -> rules = [])
  /\ (block ->
        rules
        = (mapi (fun site index => subdomainRule site (index + 1)) sites
           ++ mapi (fun site index =>
                      bareRule site (Z.of_nat (length sites) + index + 1))
                   sites)%list
        /\ length rules = (2 * length sites)%nat
        /\ (forall site, In site sites ->
              (exists i, In (subdomainRule site i) rules)
              /\ (exists i, In (bareRule site i) rules))
        /\ (forall r, In r rules ->
              exists site i, In site sites
                             /\ (r = subdomainRule site i \/ r = bareRule site i))).
Proof.
  cbv zeta.
  change (match stored_blockedSites (storage w) with
          | Some sites => sites
          | None => [ "facebook.com"; "x.com"; "instagram.com"; "youtube.com";
                      "reddit.com"; "tiktok.com" ]
          end) with (blockedSites w).
  change (match stored_blockingEnabled (storage w) with
          | Some b => b
          | None => true
          end) with (blockingEnabled w).
  change (match stored_blockDuringWork (storage w) with
          | Some b => b
          | None => true
          end) with (blockDuringWork w).
  assert (Hdec : shouldBlock w = true <->
                 blockingEnabled w = true /\ isRunning (timerState w) = true
                 /\ (blockDuringWork w = false \/ mode (timerState w) = "pomodoro")).
  { unfold shouldBlock.
    rewrite !andb_true_iff, orb_true_iff, negb_true_iff, String.eqb_eq.
    tauto. }
  rewrite updateBlockingRules_rules. unfold recomputed.
  split; [exact Hdec | split].
  - intros Hno. destruct (shouldBlock w); [| reflexivity].
    exfalso. apply Hno. now apply Hdec.
  - intros Hyes. apply Hdec in Hyes. rewrite Hyes. unfold mapi.
    split; [reflexivity |]. split; [| split].
    + rewrite length_app, !mapi_from_length. lia.
    + intros site Hsite. split.
      * destruct (mapi_from_In (fun s i => subdomainRule s (i + 1)) _ _ Hsite 0)
          as [j Hj].
        exists (j + 1). apply in_or_app. now left.
      * destruct (mapi_from_In
                    (fun s i =>
                       bareRule s (Z.of_nat (length (blockedSites w)) + i + 1))
                    _ _ Hsite 0) as [j Hj].
        eexists. apply in_or_app. right. exact Hj.
    + intros r Hr. apply in_app_or in Hr. destruct Hr as [Hr | Hr];
        apply In_mapi_from in Hr; destruct Hr as (site & j & Hsite & ->);
        exists site; eexists; (split; [exact Hsite |]); [left | right];
        reflexivity.
Qed.

(** Three running timers.  Work, with blocking stored as switched off: no
    rule.  A short break, with one site stored and the restriction to work
    sessions stored as switched off: the two rules of that site and none of
    a default site.  A short break with nothing stored: no rule. *)
Lemma C2_blocking_policy_witness :
  (stored_blockingEnabled (storage blockingOff) = Some false
   /\ isRunning (timerState blockingOff) = true
   /\ mode (timerState blockingOff) = "pomodoro"
   /\ dynamicRules (updateBlockingRules blockingOff) = [])
  /\ (stored_blockDuringWork (storage breakBlocked) = Some false
      /\ stored_blockedSites (storage breakBlocked) = Some ["news.example"]
      /\ isRunning (timerState breakBlocked) = true
      /\ mode (timerState breakBlocked) = "shortBreak"
      /\ dynamicRules (updateBlockingRules breakBlocked)
         = [subdomainRule "news.example" 1; bareRule "news.example" 2])
  /\ (storage breakUnblocked
      = mkStorage (stored_timerState (storage breakUnblocked)) None None None
      /\ isRunning (timerState breakUnblocked) = true
      /\ mode (timerState breakUnblocked) = "shortBreak"
      /\ dynamicRules (updateBlockingRules breakUnblocked) = []).
Proof.
  destruct (C2_blocking_policy blockingOff) as (_ & Hoff & _).
  destruct (C2_blocking_policy breakBlocked) as (_ & _ & Hon).
  destruct (C2_blocking_policy breakUnblocked) as (_ & Hbreak & _).
  split; [| split].
  - split; [reflexivity |]. split; [reflexivity |]. split; [reflexivity |].
    apply Hoff. intros (He & _). vm_compute in He. discriminate He.
  - split; [reflexivity |]. split; [reflexivity |]. split; [reflexivity |].
    split; [reflexivity |].
    assert (Hblock : true = true /\ true = true
                     /\ (false = false \/ "shortBreak" = "pomodoro"))
      by (split; [reflexivity | split; [reflexivity | left; reflexivity]]).
    destruct (Hon Hblock) as (Hrules & _).
    rewrite Hrules. reflexivity.
  - split; [reflexivity |]. split; [reflexivity |]. split; [reflexivity |].
    apply Hbreak. intros (_ & _ & [Hw | Hm]).
    + vm_compute in Hw. discriminate Hw.
    + vm_compute in Hm. discriminate Hm.
Defined.

(** The truth table of the decision, spelled out on the eight combinations
    of running, work mode and work-only (blocking enabled), and off whenever
    blocking is disabled. *)
Lemma shouldBlock_truth_table (w : World) :
  let work := String.eqb (mode (timerState w)) "pomodoro" in
  shouldBlock w
  = match blockingEnabled w, isRunning (timerState w), blockDuringWork w, work with
    | true, true, true, true => true
    | true, true, true, false => false
    | true, true, false, _ => true
    | true, false, _, _ => false
    | false, _, _, _ => false
    end.
Proof.
  unfold shouldBlock.
  destruct (blockingEnabled w), (isRunning (timerState w)),
    (blockDuringWork w), (String.eqb (mode (timerState w)) "pomodoro");
    reflexivity.
Qed.

(** ** What each function of the script does to the world *)

Lemma switchMode_fields (newMode : string) (w : World) :
  isRunning (timerState w) = false ->
  let w' := switchMode newMode w in
  let s' := mkTimerState newMode (durationSeconds newMode) false None None in
  timerState w' = s'
  /\ stored_timerState (storage w') = Some s'
  /\ alarm w' = alarm w /\ posted w' = posted w
  /\ notifications w' = notifications w
  /\ dynamicRules w' = dynamicRules w.
Proof.
  fields w. cbn [timerState isRunning]. intros ->.
  unfold switchMode. exec. repeat split.
Qed.

Lemma switchMode_running (newMode : string) (w : World) :
  isRunning (timerState w) = true -> switchMode newMode w = w.
Proof. unfold switchMode. now intros ->. Qed.

Lemma startTimer_fields (now : Z) (w : World) :
  isRunning (timerState w) = false ->
  let s := timerState w in
  let w' := startTimer now w in
  let s' := mkTimerState (mode s) (timeRemaining s) true (Some now) (pausedAt s) in
  timerState w' = s'
  /\ stored_timerState (storage w') = Some s'
  /\ alarm w' = true /\ posted w' = posted w
  /\ notifications w' = notifications w
  /\ dynamicRules w' = recomputed w'.
Proof.
  fields w. cbn [timerState isRunning]. intros ->.
  unfold startTimer. exec. repeat (split; [reflexivity |]).
  rewrite updateBlockingRules_rules. apply recomputed_ext; exec; reflexivity.
Qed.

Lemma startTimer_running (now : Z) (w : World) :
  isRunning (timerState w) = true -> startTimer now w = w.
Proof. unfold startTimer. now intros ->. Qed.

Lemma pauseTimer_fields (now : Z) (w : World) :
  isRunning (timerState w) = true ->
  let s := timerState w in
  let w' := pauseTimer now w in
  let s' := mkTimerState (mode s) (timeRemaining s) false (startedAt s) (Some now) in
  timerState w' = s'
  /\ stored_timerState (storage w') = Some s'
  /\ alarm w' = false /\ posted w' = posted w
  /\ notifications w' = notifications w
  /\ dynamicRules w' = recomputed w'.
Proof.
  fields w. cbn [timerState isRunning]. intros ->.
  unfold pauseTimer. exec. repeat (split; [reflexivity |]).
  rewrite updateBlockingRules_rules. apply recomputed_ext; exec; reflexivity.
Qed.

Lemma pauseTimer_stopped (now : Z) (w : World) :
  isRunning (timerState w) = false -> pauseTimer now w = w.
Proof. unfold pauseTimer. now intros ->. Qed.

Lemma resetTimer_fields (now : Z) (w : World) :
  let s := timerState w in
  let w' := resetTimer now w in
  let s' := mkTimerState (mode s) (durationSeconds (mode s)) false None None in
  timerState w' = s'
  /\ stored_timerState (storage w') = Some s'
  /\ alarm w' = false
  /\ posted w' = (posted w ++ if isRunning s && truthy (startedAt s)
                              then [abandoned now s] else [])%list
  /\ notifications w' = notifications w
  /\ dynamicRules w' = dynamicRules w.
Proof.
  fields w. unfold resetTimer. exec.
  match goal with |- context [andb ?a ?b] => destruct (andb a b) end;
    exec; repeat split. now rewrite app_nil_r.
Qed.

Lemma completeTimer_fields (now : Z) (w : World) :
  let s := timerState w in
  let w' := completeTimer now w in
  let next := nextMode (mode s) in
  let s' := mkTimerState next (durationSeconds next) false None None in
  timerState w' = s'
  /\ stored_timerState (storage w') = Some s'
  /\ alarm w' = false
  /\ posted w' = (posted w ++ [finished now s])%list
  /\ notifications w' = (notifications w ++ [completion s])%list
  /\ dynamicRules w' = recomputed w'.
Proof.
  fields w. unfold completeTimer. exec. unfold switchMode. exec.
  repeat (split; [reflexivity |]).
  rewrite updateBlockingRules_rules. apply recomputed_ext; exec; reflexivity.
Qed.

(** ** C3: which transitions recompute the rule set *)

(** Start, Pause and Complete leave the rule set recomputed from the
    snapshot they produce: [startTimer_fields], [pauseTimer_fields],
    [completeTimer_fields].  Reset leaves the rules as they were. *)
Lemma resetTimer_rules (now : Z) (w : World) :
  dynamicRules (resetTimer now w) = dynamicRules w.
Proof. apply resetTimer_fields. Qed.

(** C3.  [resetTimer] never calls [updateBlockingRules].  A work session is
    started on a fresh install (twelve rules are installed) and then reset:
    the timer is stopped, yet the twelve rules stay, whereas the rule set
    recomputed from the snapshot after the reset is empty. *)
Theorem C3_reset_keeps_stale_rules :
  let w := run [(10000, Message (request.mk "START_TIMER" ""))] firstInstall in
  let w' := handle 20000 (Message (request.mk "RESET_TIMER" "")) w in
  isRunning (timerState w') = false
  /\ dynamicRules w' = dynamicRules w
  /\ length (dynamicRules w') = 12%nat
  /\ recomputed w' = []
  /\ dynamicRules w' <> recomputed w'.
Proof.
  vm_compute. repeat (split; [reflexivity |]). discriminate.
Qed.

(** ** C4: the start timestamp *)

(** C4, as the code has it.  Start on a stopped timer records the current
    time as [startedAt]; Reset clears [startedAt] and [pausedAt]; SwitchMode
    on a stopped timer clears them too (on a running timer it changes
    nothing); Pause keeps [startedAt] as it was and records the current time
    as [pausedAt].  No message handler other than Start on a stopped timer
    gives [startedAt] a new time. *)
Theorem C4_startedAt_by_command (now : Z) (w : World) :
  let s := timerState w in
  startedAt (timerState (startTimer now w))
    = (if isRunning s then startedAt s else Some now)
  /\ startedAt (timerState (resetTimer now w)) = None
  /\ pausedAt (timerState (resetTimer now w)) = None
  /\ (forall newMode,
        startedAt (timerState (switchMode newMode w))
        = if isRunning s then startedAt s else None)
  /\ startedAt (timerState (pauseTimer now w)) = startedAt s
  /\ pausedAt (timerState (pauseTimer now w))
     = (if isRunning s then Some now else pausedAt s)
  /\ (forall r,
        let s' := timerState (fst (onMessage now r w)) in
        startedAt s' = startedAt s \/ startedAt s' = None
        \/ (request.action r = "START_TIMER" /\ isRunning s = false
            /\ startedAt s' = Some now)).
Proof.
  cbv zeta.
  assert (Hstart : startedAt (timerState (startTimer now w))
                   = if isRunning (timerState w)
                     then startedAt (timerState w) else Some now).
  { destruct (isRunning (timerState w)) eqn:E.
    - now rewrite startTimer_running.
    - now rewrite (proj1 (startTimer_fields now w E)). }
  assert (Hreset : timerState (resetTimer now w)
                   = mkTimerState (mode (timerState w))
                       (durationSeconds (mode (timerState w))) false None None)
    by apply resetTimer_fields.
  assert (Hswitch : forall newMode,
             startedAt (timerState (switchMode newMode w))
             = if isRunning (timerState w)
               then startedAt (timerState w) else None).
  { intros newMode. destruct (isRunning (timerState w)) eqn:E.
    - now rewrite switchMode_running.
    - now rewrite (proj1 (switchMode_fields newMode w E)). }
  assert (Hpause : startedAt (timerState (pauseTimer now w))
                   = startedAt (timerState w)).
  { destruct (isRunning (timerState w)) eqn:E.
    - now rewrite (proj1 (pauseTimer_fields now w E)).
    - now rewrite pauseTimer_stopped. }
  repeat (split; [first [exact Hstart | now rewrite Hreset | exact Hswitch
                        | exact Hpause] |]).
  split.
  - destruct (isRunning (timerState w)) eqn:E.
    + now rewrite (proj1 (pauseTimer_fields now w E)).
    + now rewrite pauseTimer_stopped.
  - intros r. unfold onMessage.
    destruct (String.eqb_spec (request.action r) "GET_STATE"); [now left |].
    destruct (String.eqb_spec (request.action r) "START_TIMER") as [Ha | _].
    { cbn [fst]. rewrite Hstart. destruct (isRunning (timerState w));
        [now left | right; right; auto]. }
    destruct (String.eqb_spec (request.action r) "PAUSE_TIMER");
      [cbn [fst]; rewrite Hpause; now left |].
    destruct (String.eqb_spec (request.action r) "RESET_TIMER");
      [cbn [fst]; rewrite Hreset; now right; left |].
    destruct (String.eqb_spec (request.action r) "SWITCH_MODE");
      [cbn [fst]; rewrite Hswitch; destruct (isRunning (timerState w)); auto |].
    now left.
Qed.

(** C4 as the specification words it fails on Pause: a run started at 10000
    and paused at 20000 still carries its start time. *)
Lemma C4_pause_keeps_startedAt :
  let w := run [(10000, Message (request.mk "START_TIMER" ""))] firstInstall in
  let w' := pauseTimer 20000 w in
  isRunning (timerState w) = true
  /\ startedAt (timerState w') = Some 10000
  /\ startedAt (timerState w') <> None.
Proof.
  vm_compute. repeat (split; [reflexivity |]). discriminate.
Qed.

(** ** C5: completion *)

(** A tick that brings the countdown to 0 or below completes the run. *)
Lemma onAlarm_completes (now : Z) (w : World) (z : Z) :
  isRunning (timerState w) = true ->
  timeRemaining (timerState w) = Int z ->
  z <= 1 ->
  onAlarm now "pomodoroTimer" w
  = saveState (completeTimer now (set_timeRemaining (Int (z - 1)) w)).
Proof.
  intros Hrun Htr Hz. unfold onAlarm. rewrite Hrun, Htr.
  cbn [String.eqb Ascii.eqb Bool.eqb andb sub].
  replace (le (timeRemaining (timerState (set_timeRemaining (Int (z - 1)) w)))
              (Int 0)) with true; [reflexivity |].
  cbn. symmetry. apply Z.leb_le. lia.
Qed.

(** A tick that leaves the countdown positive only decrements it. *)
Lemma onAlarm_counts_down (now : Z) (w : World) (z : Z) :
  isRunning (timerState w) = true ->
  timeRemaining (timerState w) = Int z ->
  1 < z ->
  let s := timerState w in
  let w' := onAlarm now "pomodoroTimer" w in
  let s' := mkTimerState (mode s) (Int (z - 1)) true (startedAt s) (pausedAt s) in
  timerState w' = s'
  /\ stored_timerState (storage w') = Some s'
  /\ alarm w' = alarm w /\ posted w' = posted w
  /\ notifications w' = notifications w
  /\ dynamicRules w' = dynamicRules w.
Proof.
  fields w. cbn [timerState isRunning timeRemaining]. intros -> -> Hz.
  unfold onAlarm.
  cbn [String.eqb Ascii.eqb Bool.eqb andb sub timerState isRunning
         timeRemaining set_timeRemaining set_timerState le].
  replace (z - 1 <=? 0) with false by (symmetry; apply Z.leb_gt; lia).
  exec. repeat split.
Qed.

(** An alarm of another name, or an alarm while stopped, changes nothing. *)
Lemma onAlarm_ignored (now : Z) (name : string) (w : World) :
  String.eqb name "pomodoroTimer" && isRunning (timerState w) = false ->
  onAlarm now name w = w.
Proof. unfold onAlarm. now intros ->. Qed.

(** C5.  In a recognized mode (its configured length being [minutes]),
    Complete posts exactly one session record, with [completed = true] and
    [duration_minutes] the length of the mode, raises exactly one
    notification, stops the timer and the alarm, and switches to the short
    break after a work session and to work after a break, with the full
    duration of the new mode remaining (300 after work, where the record is
    pomodoro, 25 minutes, completed).  A tick of a running timer with at
    most one second left is such a completion. *)
Theorem C5_complete (now : Z) (w : World) (minutes : Z) :
  get TIMER_CONFIG (mode (timerState w)) = Own minutes ->
  let s := timerState w in
  let record :=
    {| session_type := mode s; duration_minutes := Own minutes;
       completed := true; started_at := timeValue (startedAt s);
       ended_at := now |} in
  let after (w' : World) :=
    posted w' = (posted w ++ [record])%list
    /\ (exists n, notifications w' = (notifications w ++ [n])%list
                  /\ requireInteraction n = true)
    /\ isRunning (timerState w') = false
    /\ alarm w' = false
    /\ mode (timerState w')
       = (if String.eqb (mode s) "pomodoro" then "shortBreak" else "pomodoro")
    /\ timeRemaining (timerState w') = durationSeconds (mode (timerState w'))
    /\ inRange (timerState w')
    /\ (mode s = "pomodoro" ->
        minutes = 25 /\ mode (timerState w') = "shortBreak"
        /\ timeRemaining (timerState w') = Int 300) in
  after (completeTimer now w)
  /\ (isRunning s = true ->
      forall z, timeRemaining s = Int z -> z <= 1 ->
                after (onAlarm now "pomodoroTimer" w)).
Proof.
  intros Hcfg s record after. subst s.
  set (s := timerState w) in *.
  assert (Hafter : forall w0 : World,
             mode (timerState w0) = mode s ->
             startedAt (timerState w0) = startedAt s ->
             posted w0 = posted w -> notifications w0 = notifications w ->
             after (completeTimer now w0)).
  { intros w0 Hm Hs Hp Hn.
    destruct (completeTimer_fields now w0) as (Ht & _ & Ha & Hpo & Hno & _).
    unfold after. rewrite Ht, Ha, Hpo, Hno, Hp, Hn.
    unfold finished, completion. rewrite Hm, Hs, Hcfg. fold record.
    cbn [mode timeRemaining isRunning requireInteraction].
    split; [reflexivity |].
    split; [eexists; split; reflexivity |].
    split; [reflexivity |]. split; [reflexivity |].
    split; [reflexivity |]. split; [reflexivity |].
    split.
    - unfold inRange. cbn [mode timeRemaining].
      destruct (recognized_config _ (nextMode_recognized (mode s)))
        as (k & _ & Hk & ->). lia.
    - intros Hw. rewrite Hw in *. cbn in Hcfg.
      injection Hcfg as <-. repeat split. }
  split.
  - apply Hafter; reflexivity.
  - intros Hrun z Hz Hle. rewrite (onAlarm_completes now w z Hrun Hz Hle).
    unfold after. autorewrite with world.
    apply (Hafter (set_timeRemaining (Int (z - 1)) w)); reflexivity.
Qed.

(** The last tick of a work session started at 10000. *)
Lemma C5_complete_witness :
  get TIMER_CONFIG (mode (timerState lastSecond)) = Own 25
  /\ posted (onAlarm 1510000 "pomodoroTimer" lastSecond)
     = [ {| session_type := "pomodoro"; duration_minutes := Own 25;
            completed := true; started_at := 10000; ended_at := 1510000 |} ]
  /\ timerState (onAlarm 1510000 "pomodoroTimer" lastSecond)
     = mkTimerState "shortBreak" (Int 300) false None None.
Proof.
  split; [reflexivity |].
  destruct (C5_complete 1510000 lastSecond 25 eq_refl) as [_ Htick].
  destruct (Htick eq_refl 1 eq_refl ltac:(lia)) as (Hposted & _).
  split; [exact Hposted | reflexivity].
Defined.

(** The end-to-end scenario: Start in work mode, then 1500 ticks.  One
    record is posted, one notification raised, and the timer rests in the
    short break with 300 seconds. *)
Example work_session_runs_to_completion :
  let w := run ((1000, Message (request.mk "START_TIMER" "")) :: ticks 1000 1500)
               firstInstall in
  timerState w = mkTimerState "shortBreak" (Int 300) false None None
  /\ posted w
     = [ {| session_type := "pomodoro"; duration_minutes := Own 25;
            completed := true; started_at := 1000; ended_at := 1501000 |} ]
  /\ length (notifications w) = 1%nat
  /\ alarm w = false
  /\ dynamicRules w = [].
Proof.
  vm_compute. repeat split.
Qed.

(** ** C6: reset *)


(** The end-to-end scenario: Start, ten ticks, Reset.  One record, not
    completed, 25 minutes; the snapshot is back at 1500 seconds, stopped. *)
Example reset_after_ten_ticks :
  let w := run ((1000, Message (request.mk "START_TIMER" "")) :: ticks 1000 10
                ++ [(11500, Message (request.mk "RESET_TIMER" ""))])
               firstInstall in
  timerState w = mkTimerState "pomodoro" (Int 1500) false None None
  /\ posted w
     = [ {| session_type := "pomodoro"; duration_minutes := Own 25;
            completed := false; started_at := 1000; ended_at := 11500 |} ].
Proof.
  vm_compute. split; reflexivity.
Qed.

(** ** C8: illegal transitions and unknown actions *)

(** C8.  Start on a running timer, Pause on a stopped timer and SwitchMode
    on a running timer leave the whole world as it is and answer with the
    unchanged snapshot.  A message whose action is one of the five is
    answered with a snapshot, never with an error; any other action is
    answered with the error "Unknown action" and changes nothing.  A second
    START_TIMER right after a first changes nothing. *)
Theorem C8_illegal_transitions (now : Z) (w : World) :
  (isRunning (timerState w) = true ->
   forall m, onMessage now (request.mk "START_TIMER" m) w = (w, State (timerState w)))
  /\ (isRunning (timerState w) = false ->
      forall m, onMessage now (request.mk "PAUSE_TIMER" m) w = (w, State (timerState w)))
  /\ (isRunning (timerState w) = true ->
      forall m, onMessage now (request.mk "SWITCH_MODE" m) w = (w, State (timerState w)))
  /\ (forall r, In (request.action r) actions ->
                snd (onMessage now r w) = State (timerState (fst (onMessage now r w))))
  /\ (forall r, ~ In (request.action r) actions ->
                onMessage now r w = (w, Error "Unknown action"))
  /\ (forall now' m m',
        let w1 := fst (onMessage now (request.mk "START_TIMER" m) w) in
        onMessage now' (request.mk "START_TIMER" m') w1 = (w1, State (timerState w1))).
Proof.
  assert (Hstart : forall t w0 m, isRunning (timerState w0) = true ->
            onMessage t (request.mk "START_TIMER" m) w0 = (w0, State (timerState w0))).
  { intros t w0 m Hrun. unfold onMessage.
    cbn [request.action String.eqb Ascii.eqb Bool.eqb].
    now rewrite (startTimer_running t w0 Hrun). }
  split; [intros Hrun m; now apply Hstart |].
  split; [| split; [| split; [| split]]].
  - intros Hrun m. unfold onMessage.
    cbn [request.action String.eqb Ascii.eqb Bool.eqb].
    now rewrite (pauseTimer_stopped now w Hrun).
  - intros Hrun m. unfold onMessage.
    cbn [request.action request.mode String.eqb Ascii.eqb Bool.eqb].
    now rewrite (switchMode_running m w Hrun).
  - intros r Hin. unfold onMessage.
    repeat match goal with
           | |- context [String.eqb ?a ?b] =>
               destruct (String.eqb_spec a b); [reflexivity |]
           end.
    exfalso. unfold actions in Hin. cbn [In] in Hin.
    repeat (destruct Hin as [Hin | Hin]; [congruence |]). exact Hin.
  - intros r Hout. unfold onMessage.
    repeat match goal with
           | |- context [String.eqb ?a ?b] =>
               destruct (String.eqb_spec a b) as [He | _];
               [exfalso; apply Hout; rewrite He; cbn; tauto |]
           end.
    reflexivity.
  - intros now' m m' w1. apply Hstart. unfold w1, onMessage.
    cbn [request.action String.eqb Ascii.eqb Bool.eqb fst].
    destruct (isRunning (timerState w)) eqn:Hrun.
    + now rewrite (startTimer_running now w Hrun).
    + now rewrite (proj1 (startTimer_fields now w Hrun)).
Qed.

(** Start and SwitchMode on the running session, Pause on the fresh
    install, and an action the listener does not know. *)
Lemma C8_illegal_transitions_witness :
  isRunning (timerState runningWork) = true
  /\ onMessage 20000 (request.mk "START_TIMER" "") runningWork
     = (runningWork, State (timerState runningWork))
  /\ onMessage 20000 (request.mk "SWITCH_MODE" "shortBreak") runningWork
     = (runningWork, State (timerState runningWork))
  /\ isRunning (timerState firstInstall) = false
  /\ onMessage 20000 (request.mk "PAUSE_TIMER" "") firstInstall
     = (firstInstall, State (timerState firstInstall))
  /\ ~ In "STOP_TIMER" actions
  /\ onMessage 20000 (request.mk "STOP_TIMER" "") runningWork
     = (runningWork, Error "Unknown action").
Proof.
  destruct (C8_illegal_transitions 20000 runningWork)
    as (Hstart & _ & Hswitch & _ & Hunknown & _).
  destruct (C8_illegal_transitions 20000 firstInstall) as (_ & Hpause & _).
  assert (Hout : ~ In (request.action (request.mk "STOP_TIMER" "")) actions).
  { cbn. intros H.
    repeat (destruct H as [H | H]; [discriminate |]). exact H. }
  split; [reflexivity |].
  split; [exact (Hstart eq_refl "") |].
  split; [exact (Hswitch eq_refl "shortBreak") |].
  split; [reflexivity |].
  split; [exact (Hpause eq_refl "") |].
  split; [exact Hout |].
  exact (Hunknown (request.mk "STOP_TIMER" "") Hout).
Defined.

(** ** C10: SwitchMode with an unrecognized mode *)

(** C10.  On a stopped timer, SwitchMode with a string that is none of the
    three modes is carried out: the mode becomes that string, the time
    remaining becomes [NaN] (the configuration has no such own key, and what
    the read yields times 60 is [NaN]; it is [undefined] unless the string
    names a member of [Object.prototype]), the range invariant fails, the
    snapshot is persisted, and the message is answered with that snapshot
    rather than an error. *)
Theorem C10_switchMode_unvalidated (now : Z) (w : World) (m : string) :
  isRunning (timerState w) = false ->
  ~ recognized m ->
  let w' := switchMode m w in
  mode (timerState w') = m
  /\ timeRemaining (timerState w') = NaN
  /\ ~ inRange (timerState w')
  /\ own TIMER_CONFIG m = None
  /\ mul (ToNumber (get TIMER_CONFIG m)) (Int 60) = NaN
  /\ (existsb (String.eqb m) ObjectPrototype = false ->
      get TIMER_CONFIG m = Undefined)
  /\ stored_timerState (storage w') = Some (timerState w')
  /\ onMessage now (request.mk "SWITCH_MODE" m) w = (w', State (timerState w')).
Proof.
  intros Hrun Hm w'.
  destruct (switchMode_fields m w Hrun) as (Ht & Hs & _).
  fold w' in Ht, Hs.
  assert (Hnan : durationSeconds m = NaN).
  { unfold durationSeconds. now rewrite (unrecognized_config m Hm). }
  assert (Hown : own TIMER_CONFIG m = None).
  { destruct (own TIMER_CONFIG m) as [z |] eqn:E; [| reflexivity].
    exfalso. apply Hm. apply (config_recognized m z). unfold get. now rewrite E. }
  rewrite Hs, Ht, Hnan. cbn [mode timeRemaining].
  split; [reflexivity |]. split; [reflexivity |].
  split; [unfold inRange; cbn [timeRemaining]; tauto |].
  split; [exact Hown |]. split; [exact Hnan |].
  split; [intros Hp; unfold get; now rewrite Hown, Hp |].
  split; [reflexivity |].
  unfold onMessage. cbn [request.action request.mode String.eqb Ascii.eqb Bool.eqb].
  fold w'. rewrite Ht, Hnan. reflexivity.
Qed.

(** SwitchMode to a mode the configuration does not have, on the fresh
    install. *)
Lemma C10_switchMode_unvalidated_witness :
  isRunning (timerState firstInstall) = false
  /\ ~ recognized "deepWork"
  /\ timerState (switchMode "deepWork" firstInstall)
     = mkTimerState "deepWork" NaN false None None
  /\ ~ inRange (timerState (switchMode "deepWork" firstInstall)).
Proof.
  assert (Hm : ~ recognized "deepWork").
  { intros [H | [H | H]]; discriminate. }
  destruct (C10_switchMode_unvalidated 0 firstInstall "deepWork" eq_refl Hm)
    as (_ & _ & Hrange & _).
  split; [reflexivity |]. split; [exact Hm |].
  split; [reflexivity | exact Hrange].
Defined.

(** ** C1: reconciliation on reactivation *)

Lemma resumeTimer_cases (now n : Z) (w : World) :
  isRunning (timerState w) = true ->
  durationSeconds (mode (timerState w)) = Int n ->
  let r := Z.max 0 (n - (now - timeValue (startedAt (timerState w))) / 1000) in
  reconciled now (timerState w) = Int r
  /\ resumeTimer now w
     = if 0 <? r
       then chrome.alarms_create (set_timeRemaining (Int r) w)
       else completeTimer now (set_timeRemaining (Int r) w).
Proof.
  intros Hrun Hdur r.
  assert (Hrec : reconciled now (timerState w) = Int r).
  { unfold reconciled. fold (durationSeconds (mode (timerState w))).
    rewrite Hdur. reflexivity. }
  split; [exact Hrec |].
  unfold resumeTimer. rewrite Hrun, Hrec. cbn [negb].
  replace (gt (timeRemaining (timerState (set_timeRemaining (Int r) w))) (Int 0))
    with (0 <? r); [reflexivity |].
  cbn. symmetry. apply Z.gtb_ltb.
Qed.

(** X26.  When the stored snapshot is running with a start time [t0]
    recorded (not null and not 0, as the listener tests it) in a mode of
    nominal duration [n] seconds, the [onInstalled] listener computes
    [r = max(0, n - floor((now - t0) / 1000))], which is never negative.  If
    [r] is 0 it runs Complete on the loaded snapshot (time remaining 0) and
    no alarm is left; otherwise the snapshot is the loaded one with [r]
    seconds remaining, the alarm is created, and nothing is posted or
    notified.  In work mode, 2000 seconds after the start, [r] is 0. *)
Theorem onInstalled_reconciles (now t0 n : Z) (loaded : TimerState) (w : World) :
  stored_timerState (storage w) = Some loaded ->
  isRunning loaded = true ->
  startedAt loaded = Some t0 ->
  t0 <> 0 ->
  durationSeconds (mode loaded) = Int n ->
  let r := Z.max 0 (n - (now - t0) / 1000) in
  let w' := onInstalled_timerState now w in
  0 <= r
  /\ reconciled now loaded = Int r
  /\ (r = 0 ->
      w' = completeTimer now (set_timeRemaining (Int 0) (set_timerState loaded w))
      /\ alarm w' = false
      /\ isRunning (timerState w') = false
      /\ posted w'
         = (posted w ++
            [ {| session_type := mode loaded;
                 duration_minutes := get TIMER_CONFIG (mode loaded);
                 completed := true; started_at := t0; ended_at := now |} ])%list)
  /\ (r <> 0 ->
      timerState w'
      = mkTimerState (mode loaded) (Int r) true (Some t0) (pausedAt loaded)
      /\ alarm w' = true
      /\ posted w' = posted w
      /\ notifications w' = notifications w)
  /\ (mode loaded = "pomodoro" -> now = t0 + 2000 * 1000 -> r = 0).
Proof.
  intros Hstored Hrun Hstart Ht0 Hdur r w'.
  assert (Hw' : w' = resumeTimer now (set_timerState loaded w)).
  { unfold w', onInstalled_timerState. rewrite Hstored.
    cbn [timerState set_timerState]. rewrite Hrun, Hstart.
    cbn [truthy andb]. apply Z.eqb_neq in Ht0. now rewrite Ht0. }
  destruct (resumeTimer_cases now n (set_timerState loaded w)) as [Hrec Hres].
  { exact Hrun. } { exact Hdur. }
  cbn [timerState set_timerState] in Hrec, Hres.
  rewrite Hstart in Hrec, Hres. cbn [timeValue] in Hrec, Hres. fold r in Hrec, Hres.
  split; [apply Z.le_max_l |]. split; [exact Hrec |].
  split; [| split].
  - intros Hr. rewrite Hr in Hres. cbn [Z.ltb Z.compare] in Hres.
    rewrite <- Hw' in Hres. rewrite Hres.
    destruct (completeTimer_fields now
                (set_timeRemaining (Int 0) (set_timerState loaded w)))
      as (Ht & _ & Ha & Hp & _).
    rewrite Ht, Ha, Hp. unfold finished.
    cbn [set_timeRemaining set_timerState timerState posted mode startedAt isRunning].
    rewrite Hstart. repeat split.
  - intros Hr. assert (Hpos : (0 <? r) = true) by (apply Z.ltb_lt; lia).
    rewrite Hpos in Hres. rewrite <- Hw' in Hres. rewrite Hres.
    cbn [chrome.alarms_create set_timeRemaining set_timerState timerState alarm
           posted notifications mode isRunning startedAt pausedAt].
    rewrite Hrun, Hstart. repeat split.
  - intros Hmode Hnow. rewrite Hmode in Hdur. cbn in Hdur.
    injection Hdur as <-. unfold r.
    replace (now - t0) with (2000 * 1000) by lia.
    reflexivity.
Qed.

(** The listener runs 2000 seconds, respectively 60 seconds, after a work
    session began at 10000. *)
Lemma onInstalled_reconciles_witness :
  stored_timerState (storage reactivated)
  = Some (mkTimerState "pomodoro" (Int 1500) true (Some 10000) None)
  /\ timerState (onInstalled_timerState 2010000 reactivated)
     = mkTimerState "shortBreak" (Int 300) false None None
  /\ alarm (onInstalled_timerState 2010000 reactivated) = false
  /\ length (posted (onInstalled_timerState 2010000 reactivated)) = 1%nat
  /\ timerState (onInstalled_timerState 70000 reactivated)
     = mkTimerState "pomodoro" (Int 1440) true (Some 10000) None
  /\ alarm (onInstalled_timerState 70000 reactivated) = true.
Proof.
  pose (loaded := mkTimerState "pomodoro" (Int 1500) true (Some 10000) None).
  assert (Ht0 : 10000 <> 0) by lia.
  destruct (onInstalled_reconciles 2010000 10000 1500 loaded reactivated
              eq_refl eq_refl eq_refl Ht0 eq_refl)
    as (_ & _ & Hzero & _ & _).
  destruct (Hzero eq_refl) as (Hw' & Halarm & _ & Hposted).
  destruct (onInstalled_reconciles 70000 10000 1500 loaded reactivated
              eq_refl eq_refl eq_refl Ht0 eq_refl)
    as (_ & _ & _ & Hpos & _).
  assert (Hr : Z.max 0 (1500 - (70000 - 10000) / 1000) <> 0)
    by (vm_compute; discriminate).
  destruct (Hpos Hr) as (Hstate & Halarm' & _).
  split; [reflexivity |].
  split; [rewrite Hw'; reflexivity |].
  split; [exact Halarm |].
  split; [rewrite Hposted; reflexivity |].
  split; [exact Hstate | exact Halarm'].
Defined.

(** C1.  The script loads the stored snapshot in the [onInstalled] listener
    only; when the worker is stopped and started again, the script runs its
    initializer and nothing reconciles.  A work session is started at
    10000 on a fresh install and the worker is restarted 2000 seconds later:
    the storage holds the running snapshot and its reconciled time is 0, yet
    no completion takes place: the snapshot in memory is stopped at 1500
    seconds in work mode, no session is recorded, nothing is notified, and
    the alarms that still fire change nothing; the [onInstalled] listener,
    had it run, would have completed the session.  Restarted 60 seconds
    after the start, the reconciled time is 1440, yet the timer does not
    resume: it is stopped at 1500 seconds and the alarms are ignored. *)
Theorem C1_restart_skips_reconciliation :
  let loaded := mkTimerState "pomodoro" (Int 1500) true (Some 10000) None in
  let late := 10000 + 2000 * 1000 in
  let early := 10000 + 60 * 1000 in
  let w := handle late Restarted runningWork in
  let v := handle early Restarted runningWork in
  stored_timerState (storage runningWork) = Some loaded
  /\ (stored_timerState (storage w) = Some loaded
      /\ reconciled late loaded = Int 0
      /\ timerState w = mkTimerState "pomodoro" (Int 1500) false None None
      /\ posted w = []
      /\ notifications w = []
      /\ run (ticks late 3) w = w
      /\ timerState (onInstalled_timerState late w)
         = mkTimerState "shortBreak" (Int 300) false None None
      /\ length (posted (onInstalled_timerState late w)) = 1%nat
      /\ length (notifications (onInstalled_timerState late w)) = 1%nat)
  /\ (stored_timerState (storage v) = Some loaded
      /\ reconciled early loaded = Int 1440
      /\ timerState v = mkTimerState "pomodoro" (Int 1500) false None None
      /\ run (ticks early 3) v = v
      /\ timerState (onInstalled_timerState early v)
         = mkTimerState "pomodoro" (Int 1440) true (Some 10000) None
      /\ timerState (run (ticks early 3) (onInstalled_timerState early v))
         = mkTimerState "pomodoro" (Int 1437) true (Some 10000) None).
Proof.
  vm_compute. split; [reflexivity |]. split.
  - repeat (split; [reflexivity |]). reflexivity.
  - repeat (split; [reflexivity |]). reflexivity.
Qed.

(** ** C9: Start after a pause *)

(** C9.  Start on a stopped timer with [r] seconds left, fewer than the
    nominal [n] of its mode, keeps the [r] seconds and records the current
    time [now0] as the start.  A reconciliation at [now1] then computes
    [v = max(0, n - e)] with [e = floor((now1 - now0) / 1000)], which
    exceeds the time truly left, [r - e], by at least [n - r]; whenever [v]
    is positive it also exceeds [max(0, r - e)], and it is the time
    remaining [resumeTimer] leaves. *)
Theorem C9_start_after_pause (now0 now1 n r : Z) (w : World) :
  isRunning (timerState w) = false ->
  timeRemaining (timerState w) = Int r ->
  durationSeconds (mode (timerState w)) = Int n ->
  r < n ->
  let w1 := startTimer now0 w in
  let e := (now1 - now0) / 1000 in
  timeRemaining (timerState w1) = Int r
  /\ startedAt (timerState w1) = Some now0
  /\ isRunning (timerState w1) = true
  /\ exists v,
       reconciled now1 (timerState w1) = Int v
       /\ v = Z.max 0 (n - e)
       /\ r - e < v
       /\ n - r <= v - (r - e)
       /\ (0 < v ->
           Z.max 0 (r - e) < v
           /\ timeRemaining (timerState (resumeTimer now1 w1)) = Int v).
Proof.
  intros Hrun Hr Hdur Hlt w1 e.
  destruct (startTimer_fields now0 w Hrun) as (Ht & _).
  fold w1 in Ht.
  assert (Hrun1 : isRunning (timerState w1) = true) by now rewrite Ht.
  assert (Hdur1 : durationSeconds (mode (timerState w1)) = Int n)
    by now rewrite Ht.
  destruct (resumeTimer_cases now1 n w1 Hrun1 Hdur1) as [Hrec Hres].
  assert (Hstart : startedAt (timerState w1) = Some now0) by now rewrite Ht.
  rewrite Hstart in Hrec, Hres. cbn [timeValue] in Hrec, Hres.
  fold e in Hrec, Hres.
  split; [rewrite Ht; exact Hr |]. split; [exact Hstart |].
  split; [exact Hrun1 |].
  exists (Z.max 0 (n - e)). split; [exact Hrec |]. split; [reflexivity |].
  split; [lia |]. split; [lia |].
  intros Hpos. split; [lia |].
  rewrite Hres. apply Z.ltb_lt in Hpos. rewrite Hpos. reflexivity.
Qed.

(** The paused session (1497 seconds left) is started again at 60000 and
    reconciled 100 seconds later: 1400 seconds, where 1397 are truly left. *)
Lemma C9_start_after_pause_witness :
  isRunning (timerState pausedWork) = false
  /\ timeRemaining (timerState pausedWork) = Int 1497
  /\ durationSeconds (mode (timerState pausedWork)) = Int 1500
  /\ 1497 < 1500
  /\ timeRemaining (timerState (startTimer 60000 pausedWork)) = Int 1497
  /\ startedAt (timerState (startTimer 60000 pausedWork)) = Some 60000
  /\ reconciled 160000 (timerState (startTimer 60000 pausedWork)) = Int 1400.
Proof.
  assert (Hlt : 1497 < 1500) by lia.
  destruct (C9_start_after_pause 60000 160000 1500 1497 pausedWork
              eq_refl eq_refl eq_refl Hlt)
    as (Htr & Hstart & _ & v & Hrec & Hv & _).
  repeat (split; [first [reflexivity | exact Hlt | exact Htr | exact Hstart] |]).
  rewrite Hrec, Hv. reflexivity.
Defined.

(** ** C7: the range of the time remaining along a run *)

Section RangeInvariant.

Variable mono : Prop.













End RangeInvariant.

Lemma onInstalled_blocking_frame (w : World) :
  timerState (onInstalled_blocking w) = timerState w
  /\ storage (onInstalled_blocking w) = storage w.
Proof.
  unfold onInstalled_blocking. destruct (0 <? _); split; reflexivity.
Qed.







(** * Further properties of the background script *)

(** ** Ticks *)

(** What [k] alarms do to a running timer with more than [k] seconds left. *)
Lemma alarms_count_down (events : list (Z * Event)) :
  forall (w : World) (z : Z),
    alarmsOnly events ->
    isRunning (timerState w) = true ->
    timeRemaining (timerState w) = Int z ->
    Z.of_nat (length events) < z ->
    let s := timerState w in
    let w' := run events w in
    timerState w'
    = mkTimerState (mode s) (Int (z - Z.of_nat (length events))) true
                   (startedAt s) (pausedAt s)
    /\ posted w' = posted w
    /\ notifications w' = notifications w
    /\ dynamicRules w' = dynamicRules w
    /\ alarm w' = alarm w
    /\ (events <> [] -> stored_timerState (storage w') = Some (timerState w')).
Proof.
  induction events as [| [now e] rest IH]; intros w z Hall Hrun Hz Hlen.
  - cbn [run length Z.of_nat]. rewrite Z.sub_0_r.
    split; [| repeat split; congruence].
    destruct (timerState w); cbn in *; now subst.
  - inversion Hall as [| x l He Hrest]; subst. cbn [snd] in He. subst e.
    cbv zeta. cbn [run handle].
    assert (Hz1 : 1 < z) by (cbn [length] in Hlen; lia).
    destruct (onAlarm_counts_down now w z Hrun Hz Hz1)
      as (Ht & Hs & Ha & Hp & Hn & Hr).
    set (w1 := onAlarm now "pomodoroTimer" w) in *.
    assert (Hrun1 : isRunning (timerState w1) = true) by now rewrite Ht.
    assert (Hz' : timeRemaining (timerState w1) = Int (z - 1)) by now rewrite Ht.
    assert (Hlen1 : Z.of_nat (length rest) < z - 1) by (cbn [length] in Hlen; lia).
    destruct (IH w1 (z - 1) Hrest Hrun1 Hz' Hlen1)
      as (Ht' & Hp' & Hn' & Hr' & Ha' & Hs').
    cbv zeta in Ht', Hs'.
    assert (Hsaved : stored_timerState (storage (run rest w1))
                     = Some (timerState (run rest w1))).
    { destruct rest as [| te rest']; [cbn [run]; now rewrite Hs, Ht |].
      apply Hs'. discriminate. }
    rewrite Hsaved, Ht', Hp', Hn', Hr', Ha', Ht, Hp, Hn, Hr, Ha.
    cbn [mode startedAt pausedAt length].
    replace (z - 1 - Z.of_nat (length rest))
      with (z - Z.of_nat (S (length rest))) by lia.
    repeat (split; [reflexivity |]). reflexivity.
Qed.

(** X1.  Ticks count down: on a running timer with [z] seconds left, [k]
    alarms with [k < z] leave [z - k] seconds, the timer running, the mode
    and both timestamps as they were, and post, notify and change no rule;
    after the first of them the storage holds the snapshot. *)
Theorem ticks_count_down (events : list (Z * Event)) (w : World) (z : Z) :
  alarmsOnly events ->
  isRunning (timerState w) = true ->
  timeRemaining (timerState w) = Int z ->
  Z.of_nat (length events) < z ->
  let s := timerState w in
  let w' := run events w in
  timeRemaining (timerState w') = Int (z - Z.of_nat (length events))
  /\ isRunning (timerState w') = true
  /\ mode (timerState w') = mode s
  /\ startedAt (timerState w') = startedAt s
  /\ pausedAt (timerState w') = pausedAt s
  /\ posted w' = posted w
  /\ notifications w' = notifications w
  /\ dynamicRules w' = dynamicRules w
  /\ alarm w' = alarm w
  /\ (events <> [] -> stored_timerState (storage w') = Some (timerState w')).
Proof.
  intros Hall Hrun Hz Hlen s w'.
  destruct (alarms_count_down events w z Hall Hrun Hz Hlen)
    as (Ht & Hp & Hn & Hr & Ha & Hs).
  fold w' in Ht, Hp, Hn, Hr, Ha, Hs. rewrite Ht.
  cbn [timeRemaining isRunning mode startedAt pausedAt].
  repeat (split; [first [reflexivity | assumption] |]).
  intros Hne. rewrite <- Ht. now apply Hs.
Qed.

(** Three ticks of the work session started at 10000. *)
Lemma ticks_count_down_witness :
  alarmsOnly (ticks 10000 3)
  /\ timerState (run (ticks 10000 3) runningWork)
     = mkTimerState "pomodoro" (Int 1497) true (Some 10000) None
  /\ posted (run (ticks 10000 3) runningWork) = [].
Proof.
  assert (Hall : alarmsOnly (ticks 10000 3)) by (repeat constructor).
  assert (Hlen : Z.of_nat (length (ticks 10000 3)) < 1500) by (cbn; lia).
  destruct (ticks_count_down (ticks 10000 3) runningWork 1500 Hall
              eq_refl eq_refl Hlen) as (_ & _ & _ & _ & _ & Hp & _).
  split; [exact Hall |]. split; [vm_compute; reflexivity | exact Hp].
Defined.

Lemma run_app (a b : list (Z * Event)) :
  forall w, run (a ++ b) w = run b (run a w).
Proof.
  induction a as [| [now e] rest IH]; intros w; [reflexivity |].
  cbn [app run]. apply IH.
Qed.

Lemma updateBlockingRules_badgeText (w : World) :
  badgeText (updateBlockingRules w) = badgeText w.
Proof.
  unfold updateBlockingRules, enableBlocking, disableBlocking.
  destruct (shouldBlock w); [reflexivity |].
  destruct (0 <? _); reflexivity.
Qed.

Lemma saveState_badgeText (w : World) : badgeText (saveState w) = badgeText w.
Proof. reflexivity. Qed.

Lemma switchMode_badgeText (m : string) (w : World) :
  badgeText (switchMode m w) = badgeText w.
Proof. unfold switchMode. destruct (isRunning (timerState w)); reflexivity. Qed.

Lemma completeTimer_badgeText (now : Z) (w : World) :
  badgeText (completeTimer now w) = None.
Proof.
  unfold completeTimer.
  rewrite saveState_badgeText, updateBlockingRules_badgeText,
    switchMode_badgeText.
  reflexivity.
Qed.

(** X2.  The tick that finds one second left completes the run: after
    [z - 1] alarms and one more at [now], a timer that was running with [z]
    seconds is stopped in the next mode at its full duration, exactly one
    record (completed, started at the recorded start, ended at [now]) and
    one notification were added, no alarm is left and the badge is
    cleared. *)
Theorem last_tick_completes (events : list (Z * Event)) (now : Z)
        (w : World) (z : Z) :
  alarmsOnly events ->
  isRunning (timerState w) = true ->
  timeRemaining (timerState w) = Int z ->
  Z.of_nat (length events) + 1 = z ->
  let s := timerState w in
  let w' := run (events ++ [(now, AlarmFired "pomodoroTimer")]) w in
  timerState w'
  = mkTimerState (nextMode (mode s)) (durationSeconds (nextMode (mode s)))
                 false None None
  /\ posted w' = (posted w ++ [finished now s])%list
  /\ notifications w' = (notifications w ++ [completion s])%list
  /\ alarm w' = false
  /\ badgeText w' = None
  /\ stored_timerState (storage w') = Some (timerState w').
Proof.
  intros Hall Hrun Hz Hlen s w'.
  destruct (alarms_count_down events w z Hall Hrun Hz) as (Ht & Hp & Hn & _);
    [lia |].
  unfold w'. rewrite run_app. cbn [run handle].
  set (w1 := run events w) in *.
  assert (Hrun1 : isRunning (timerState w1) = true) by now rewrite Ht.
  assert (Hz1 : timeRemaining (timerState w1) = Int 1).
  { rewrite Ht. cbn [timeRemaining]. f_equal. lia. }
  rewrite (onAlarm_completes now w1 1 Hrun1 Hz1) by lia.
  set (w2 := set_timeRemaining (Int (1 - 1)) w1).
  destruct (completeTimer_fields now w2) as (Ht2 & _ & Ha2 & Hp2 & Hn2 & _).
  assert (Hm : mode (timerState w2) = mode s) by (unfold w2; cbn; now rewrite Ht).
  assert (Hst : startedAt (timerState w2) = startedAt s)
    by (unfold w2; cbn; now rewrite Ht).
  autorewrite with world. rewrite saveState_badgeText.
  cbn [stored_timerState].
  rewrite completeTimer_badgeText, Ht2, Ha2, Hp2, Hn2.
  unfold finished, completion. rewrite Hm, Hst.
  unfold w2. cbn [posted notifications set_timeRemaining set_timerState].
  rewrite Hp, Hn. repeat split.
Qed.

(** The 1500 ticks of a work session started at 10000. *)
Lemma last_tick_completes_witness :
  alarmsOnly (ticks 10000 1499)
  /\ timerState (run (ticks 10000 1499 ++ [(1510000, AlarmFired "pomodoroTimer")])
                     runningWork)
     = mkTimerState "shortBreak" (Int 300) false None None
  /\ length (posted (run (ticks 10000 1499
                          ++ [(1510000, AlarmFired "pomodoroTimer")])
                         runningWork)) = 1%nat.
Proof.
  assert (Hall : alarmsOnly (ticks 10000 1499)).
  { unfold alarmsOnly, ticks. apply Forall_forall. intros te Hin.
    apply in_map_iff in Hin. destruct Hin as (k & <- & _). reflexivity. }
  assert (Hlen : Z.of_nat (length (ticks 10000 1499)) + 1 = 1500).
  { unfold ticks. rewrite length_map, length_seq. reflexivity. }
  destruct (last_tick_completes (ticks 10000 1499) 1510000 runningWork 1500
              Hall eq_refl eq_refl Hlen) as (Ht & Hp & _).
  split; [exact Hall |]. split; [exact Ht |].
  rewrite Hp. reflexivity.
Defined.

(** X3.  A running timer whose time remaining is [NaN] never completes:
    every tick leaves the snapshot as it is, posts and notifies nothing, and
    shows [NaN] on the badge. *)
Theorem nan_timer_never_completes (events : list (Z * Event)) :
  forall w : World,
    alarmsOnly events ->
    isRunning (timerState w) = true ->
    timeRemaining (timerState w) = NaN ->
    let w' := run events w in
    timerState w' = timerState w
    /\ posted w' = posted w
    /\ notifications w' = notifications w
    /\ alarm w' = alarm w
    /\ (events <> [] -> badgeText w' = Some NaN).
Proof.
  assert (Hstep : forall now w,
             isRunning (timerState w) = true ->
             timeRemaining (timerState w) = NaN ->
             let w1 := onAlarm now "pomodoroTimer" w in
             timerState w1 = timerState w /\ posted w1 = posted w
             /\ notifications w1 = notifications w /\ alarm w1 = alarm w
             /\ badgeText w1 = Some NaN).
  { intros now w. fields w. cbn [timerState isRunning timeRemaining].
    intros -> ->. unfold onAlarm.
    cbn [String.eqb Ascii.eqb Bool.eqb andb sub timerState isRunning
           timeRemaining set_timeRemaining set_timerState le Math_ceil_div].
    exec. repeat split. }
  induction events as [| [now e] rest IH]; intros w Hall Hrun Hnan.
  - cbn. repeat split. intros H. now contradiction H.
  - inversion Hall as [| x l He Hrest]; subst. cbn [snd] in He. subst e.
    cbv zeta. cbn [run handle].
    destruct (Hstep now w Hrun Hnan) as (Ht & Hp & Hn & Ha & Hb).
    set (w1 := onAlarm now "pomodoroTimer" w) in *.
    destruct (IH w1 Hrest) as (Ht' & Hp' & Hn' & Ha' & Hb');
      [now rewrite Ht | now rewrite Ht |].
    cbv zeta in Ht', Hb'. rewrite Ht', Hp', Hn', Ha', Ht, Hp, Hn, Ha.
    repeat (split; [reflexivity |]).
    intros _. destruct rest as [| te rest']; [exact Hb |].
    apply Hb'. discriminate.
Qed.

(** A timer switched to a mode the configuration does not have, started,
    and ticked three times. *)
Lemma nan_timer_never_completes_witness :
  let w := startTimer 1000 (switchMode "deepWork" firstInstall) in
  alarmsOnly (ticks 1000 3)
  /\ isRunning (timerState w) = true
  /\ timeRemaining (timerState w) = NaN
  /\ timerState (run (ticks 1000 3) w)
     = mkTimerState "deepWork" NaN true (Some 1000) None.
Proof.
  cbv zeta.
  assert (Hall : alarmsOnly (ticks 1000 3)) by (repeat constructor).
  destruct (nan_timer_never_completes (ticks 1000 3)
              (startTimer 1000 (switchMode "deepWork" firstInstall))
              Hall eq_refl eq_refl) as (Ht & _).
  split; [exact Hall |]. split; [reflexivity |]. split; [reflexivity |].
  rewrite Ht. reflexivity.
Defined.

(** X4.  A tick that leaves a running timer with time on the clock writes
    on the badge the minutes remaining rounded up: a number between 1 and
    the length of the mode, when the time was within the nominal
    duration. *)
Theorem badge_shows_minutes_left (now : Z) (w : World) (z minutes : Z) :
  isRunning (timerState w) = true ->
  timeRemaining (timerState w) = Int z ->
  1 < z ->
  get TIMER_CONFIG (mode (timerState w)) = Own minutes ->
  z <= minutes * 60 ->
  exists b,
    badgeText (onAlarm now "pomodoroTimer" w) = Some (Int b)
    /\ 1 <= b <= minutes
    /\ 60 * (b - 1) < z - 1 <= 60 * b.
Proof.
  fields w. cbn [timerState isRunning timeRemaining mode].
  intros -> -> Hz Hcfg Hle.
  exists (- (- (z - 1) / 60)). split.
  - unfold onAlarm.
    cbn [String.eqb Ascii.eqb Bool.eqb andb sub timerState isRunning
           timeRemaining set_timeRemaining set_timerState le Math_ceil_div].
    replace (z - 1 <=? 0) with false by (symmetry; apply Z.leb_gt; lia).
    exec. reflexivity.
  - pose proof (Z.div_mod (- (z - 1)) 60 ltac:(lia)) as Hdm.
    pose proof (Z.mod_pos_bound (- (z - 1)) 60 ltac:(lia)) as Hmod.
    lia.
Qed.

(** The first tick of the work session: 1499 seconds are 25 minutes on the
    badge. *)
Lemma badge_shows_minutes_left_witness :
  isRunning (timerState runningWork) = true
  /\ timeRemaining (timerState runningWork) = Int 1500
  /\ get TIMER_CONFIG (mode (timerState runningWork)) = Own 25
  /\ badgeText (onAlarm 11000 "pomodoroTimer" runningWork) = Some (Int 25).
Proof.
  assert (H1 : 1 < 1500) by lia.
  assert (H2 : 1500 <= 25 * 60) by lia.
  destruct (badge_shows_minutes_left 11000 runningWork 1500 25
              eq_refl eq_refl H1 eq_refl H2) as (b & Hb & _).
  repeat (split; [reflexivity |]). reflexivity.
Defined.

(** ** What a worker that stays alive maintains *)

Lemma recomputed_reads (w1 w2 : World) :
  isRunning (timerState w1) = isRunning (timerState w2) ->
  mode (timerState w1) = mode (timerState w2) ->
  settingsOf w1 = settingsOf w2 ->
  recomputed w1 = recomputed w2.
Proof.
  unfold settingsOf. intros Hr Hm Hs. injection Hs as He Hw Hb.
  unfold recomputed, shouldBlock, blockingEnabled, blockDuringWork, blockedSites.
  now rewrite Hr, Hm, He, Hw, Hb.
Qed.

Lemma recomputed_stopped (w : World) :
  isRunning (timerState w) = false -> recomputed w = [].
Proof.
  intros Hr. unfold recomputed, shouldBlock. rewrite Hr.
  now rewrite andb_false_r.
Qed.

Lemma saveState_settingsOf (w : World) : settingsOf (saveState w) = settingsOf w.
Proof. reflexivity. Qed.

Lemma updateBlockingRules_settingsOf (w : World) :
  settingsOf (updateBlockingRules w) = settingsOf w.
Proof. unfold settingsOf. now rewrite updateBlockingRules_storage. Qed.

Lemma switchMode_settingsOf (m : string) (w : World) :
  settingsOf (switchMode m w) = settingsOf w.
Proof. unfold switchMode. destruct (isRunning (timerState w)); reflexivity. Qed.

Lemma completeTimer_settingsOf (now : Z) (w : World) :
  settingsOf (completeTimer now w) = settingsOf w.
Proof.
  unfold completeTimer.
  rewrite saveState_settingsOf, updateBlockingRules_settingsOf,
    switchMode_settingsOf.
  reflexivity.
Qed.

Lemma startTimer_settingsOf (now : Z) (w : World) :
  settingsOf (startTimer now w) = settingsOf w.
Proof.
  unfold startTimer. destruct (isRunning (timerState w)); [reflexivity |].
  rewrite saveState_settingsOf, updateBlockingRules_settingsOf. reflexivity.
Qed.

Lemma pauseTimer_settingsOf (now : Z) (w : World) :
  settingsOf (pauseTimer now w) = settingsOf w.
Proof.
  unfold pauseTimer. destruct (isRunning (timerState w)); [| reflexivity].
  cbn [negb]. rewrite saveState_settingsOf, updateBlockingRules_settingsOf.
  reflexivity.
Qed.

Lemma resetTimer_settingsOf (now : Z) (w : World) :
  settingsOf (resetTimer now w) = settingsOf w.
Proof.
  unfold resetTimer.
  destruct (isRunning (timerState w) && truthy (startedAt (timerState w)));
    reflexivity.
Qed.

(** A tick of a running timer whose time remaining is [NaN]. *)
Lemma onAlarm_nan (now : Z) (w : World) :
  isRunning (timerState w) = true ->
  timeRemaining (timerState w) = NaN ->
  let w' := onAlarm now "pomodoroTimer" w in
  timerState w' = timerState w
  /\ stored_timerState (storage w') = Some (timerState w)
  /\ alarm w' = alarm w /\ posted w' = posted w
  /\ notifications w' = notifications w
  /\ dynamicRules w' = dynamicRules w
  /\ settingsOf w' = settingsOf w.
Proof.
  fields w. cbn [timerState isRunning timeRemaining]. intros -> ->.
  unfold onAlarm.
  cbn [String.eqb Ascii.eqb Bool.eqb andb sub timerState isRunning
         timeRemaining set_timeRemaining set_timerState le Math_ceil_div].
  exec. repeat split.
Qed.

Lemma onAlarm_counts_down_settingsOf (now : Z) (w : World) (z : Z) :
  isRunning (timerState w) = true ->
  timeRemaining (timerState w) = Int z ->
  1 < z ->
  settingsOf (onAlarm now "pomodoroTimer" w) = settingsOf w.
Proof.
  fields w. cbn [timerState isRunning timeRemaining]. intros -> -> Hz.
  unfold onAlarm.
  cbn [String.eqb Ascii.eqb Bool.eqb andb sub timerState isRunning
         timeRemaining set_timeRemaining set_timerState le].
  replace (z - 1 <=? 0) with false by (symmetry; apply Z.leb_gt; lia).
  reflexivity.
Qed.

(** What an alarm does, by cases: nothing; a completion; or a tick that
    keeps mode, running flag, alarm, rules, records and settings, and saves
    the snapshot. *)
Lemma onAlarm_cases (now : Z) (name : string) (w : World) :
  let w' := onAlarm now name w in
  w' = w
  \/ (exists w0, w' = saveState (completeTimer now w0)
                 /\ settingsOf w0 = settingsOf w)
  \/ (isRunning (timerState w) = true
      /\ isRunning (timerState w') = true
      /\ mode (timerState w') = mode (timerState w)
      /\ stored_timerState (storage w') = Some (timerState w')
      /\ alarm w' = alarm w /\ dynamicRules w' = dynamicRules w
      /\ settingsOf w' = settingsOf w).
Proof.
  cbv zeta.
  destruct (String.eqb name "pomodoroTimer" && isRunning (timerState w)) eqn:E;
    [| left; now apply onAlarm_ignored].
  apply andb_true_iff in E. destruct E as [En Hrun].
  apply String.eqb_eq in En. subst name. right.
  destruct (timeRemaining (timerState w)) as [z |] eqn:Hz.
  - destruct (Z_le_gt_dec z 1) as [Hle | Hgt].
    + left. exists (set_timeRemaining (Int (z - 1)) w).
      split; [now apply onAlarm_completes | reflexivity].
    + right.
      destruct (onAlarm_counts_down now w z Hrun Hz) as (Ht & Hs & Ha & _ & _ & Hr);
        [lia |].
      rewrite Hs, Ht, Ha, Hr. cbn [isRunning mode].
      repeat (split; [first [reflexivity | exact Hrun] |]).
      apply (onAlarm_counts_down_settingsOf now w z Hrun Hz). lia.
  - right. destruct (onAlarm_nan now w Hrun Hz) as (Ht & Hs & Ha & _ & _ & Hr & Hset).
    rewrite Hs, Ht, Ha, Hr, Hset.
    repeat (split; [first [reflexivity | exact Hrun] |]). reflexivity.
Qed.

Lemma storage_set_setting_frame (c : Setting) (w : World) :
  let w' := storage_set_setting c w in
  timerState w' = timerState w
  /\ stored_timerState (storage w') = stored_timerState (storage w)
  /\ alarm w' = alarm w.
Proof. destruct c; repeat split. Qed.

(** Along a run of routine events, a property of the world that every
    routine event preserves holds at the end. *)
Lemma run_preserves (P : World -> Prop) (ok : Event -> Prop) :
  (forall now e w, ok e -> P w -> P (handle now e w)) ->
  forall events w,
    Forall (fun te => ok (snd te)) events -> P w -> P (run events w).
Proof.
  intros Hstep. induction events as [| [now e] rest IH]; intros w Hall HP.
  - exact HP.
  - inversion Hall as [| x l He Hrest]; subst. cbn [run].
    apply IH; [exact Hrest |]. apply Hstep; [exact He | exact HP].
Qed.

Lemma handle_persisted (now : Z) (e : Event) (w : World) :
  routine e -> persisted w -> persisted (handle now e w).
Proof.
  assert (Hsaved : forall w' s, timerState w' = s ->
                     stored_timerState (storage w') = Some s -> persisted w').
  { intros w' s Ht Hs. unfold persisted. now rewrite Hs, Ht. }
  intros He HP. destruct e as [r | name | | c |]; try contradiction; cbn [handle].
  - unfold onMessage.
    destruct (String.eqb (request.action r) "GET_STATE"); [exact HP |].
    destruct (String.eqb (request.action r) "START_TIMER").
    { cbn [fst]. destruct (isRunning (timerState w)) eqn:Hrun.
      - now rewrite startTimer_running.
      - destruct (startTimer_fields now w Hrun) as (Ht & Hs & _). eauto. }
    destruct (String.eqb (request.action r) "PAUSE_TIMER").
    { cbn [fst]. destruct (isRunning (timerState w)) eqn:Hrun.
      - destruct (pauseTimer_fields now w Hrun) as (Ht & Hs & _). eauto.
      - now rewrite pauseTimer_stopped. }
    destruct (String.eqb (request.action r) "RESET_TIMER").
    { cbn [fst]. destruct (resetTimer_fields now w) as (Ht & Hs & _). eauto. }
    destruct (String.eqb (request.action r) "SWITCH_MODE"); [| exact HP].
    cbn [fst]. destruct (isRunning (timerState w)) eqn:Hrun.
    + now rewrite switchMode_running.
    + destruct (switchMode_fields (request.mode r) w Hrun) as (Ht & Hs & _). eauto.
  - destruct (onAlarm_cases now name w) as [-> | [(w0 & -> & _) | H]].
    + exact HP.
    + eapply Hsaved; [apply saveState_timerState | now rewrite saveState_storage].
    + destruct H as (_ & _ & _ & Hs & _). eapply Hsaved; [reflexivity | exact Hs].
  - unfold onChanged, persisted.
    rewrite updateBlockingRules_storage, updateBlockingRules_timerState.
    destruct c; exact HP.
Qed.

Lemma onInstalled_blocking_rules (w : World) :
  dynamicRules (onInstalled_blocking w) = [].
Proof. exact (disableBlocking_rules w). Qed.

(** X5.  Every command and every tick persists what it changes: along a
    run of messages, alarms and settings changes from a first install, the
    storage holds the snapshot in memory (or nothing, while the snapshot is
    still the initial one).  A stopped timer therefore survives a restart
    of the worker followed by [onInstalled] unchanged. *)
Theorem snapshot_persisted (events : list (Z * Event)) (now now' : Z) :
  Forall (fun te => routine (snd te)) events ->
  let w := run events firstInstall in
  persisted w
  /\ (isRunning (timerState w) = false ->
      timerState (handle now' Installed (handle now Restarted w)) = timerState w).
Proof.
  intros Hall w.
  assert (HP : persisted w).
  { apply (run_preserves persisted routine); [| exact Hall | reflexivity].
    intros t e w0. apply handle_persisted. }
  split; [exact HP |]. intros Hstop. cbn [handle].
  rewrite (proj1 (onInstalled_blocking_frame _)).
  unfold onInstalled_timerState, persisted in *.
  cbn [storage set_timerState timerState].
  destruct (stored_timerState (storage w)) as [s |].
  - subst s. cbn [timerState set_timerState]. rewrite Hstop. reflexivity.
  - cbn [timerState set_timerState]. now rewrite HP.
Qed.

(** A session that was started, ticked and paused is found again after a
    restart. *)
Lemma snapshot_persisted_witness :
  Forall (fun te => routine (snd te))
         ((1000, Message (request.mk "START_TIMER" "")) :: ticks 1000 3
          ++ [(4500, Message (request.mk "PAUSE_TIMER" ""))])
  /\ timerState (handle 9000 Installed (handle 8000 Restarted pausedWork))
     = timerState pausedWork
  /\ timerState pausedWork
     = mkTimerState "pomodoro" (Int 1497) false (Some 1000) (Some 4500).
Proof.
  unfold pausedWork.
  set (events := (1000, Message (request.mk "START_TIMER" "")) :: ticks 1000 3
                 ++ [(4500, Message (request.mk "PAUSE_TIMER" ""))]).
  assert (Hall : Forall (fun te => routine (snd te)) events).
  { repeat (apply Forall_cons; [exact I |]). apply Forall_nil. }
  destruct (snapshot_persisted events 8000 9000 Hall) as [_ Hback].
  assert (Hstop : isRunning (timerState (run events firstInstall)) = false)
    by (vm_compute; reflexivity).
  split; [exact Hall |]. split; [exact (Hback Hstop) |].
  vm_compute. reflexivity.
Defined.

Lemma handle_alarm_tracks_running (now : Z) (e : Event) (w : World) :
  routine e ->
  alarm w = isRunning (timerState w) ->
  alarm (handle now e w) = isRunning (timerState (handle now e w)).
Proof.
  intros He HA. destruct e as [r | name | | c |]; try contradiction; cbn [handle].
  - unfold onMessage.
    destruct (String.eqb (request.action r) "GET_STATE"); [exact HA |].
    destruct (String.eqb (request.action r) "START_TIMER").
    { cbn [fst]. destruct (isRunning (timerState w)) eqn:Hrun.
      - now rewrite startTimer_running, Hrun.
      - destruct (startTimer_fields now w Hrun) as (Ht & _ & Ha & _).
        now rewrite Ht, Ha. }
    destruct (String.eqb (request.action r) "PAUSE_TIMER").
    { cbn [fst]. destruct (isRunning (timerState w)) eqn:Hrun.
      - destruct (pauseTimer_fields now w Hrun) as (Ht & _ & Ha & _).
        now rewrite Ht, Ha.
      - now rewrite pauseTimer_stopped, Hrun. }
    destruct (String.eqb (request.action r) "RESET_TIMER").
    { cbn [fst]. destruct (resetTimer_fields now w) as (Ht & _ & Ha & _).
      now rewrite Ht, Ha. }
    destruct (String.eqb (request.action r) "SWITCH_MODE"); [| exact HA].
    cbn [fst]. destruct (isRunning (timerState w)) eqn:Hrun.
    + now rewrite switchMode_running, Hrun.
    + destruct (switchMode_fields (request.mode r) w Hrun) as (Ht & _ & Ha & _).
      now rewrite Ht, Ha.
  - destruct (onAlarm_cases now name w) as [-> | [(w0 & -> & _) | H]].
    + exact HA.
    + rewrite saveState_alarm, saveState_timerState.
      destruct (completeTimer_fields now w0) as (Ht & _ & Ha & _).
      now rewrite Ht, Ha.
    + destruct H as (Hrun & Hrun' & _ & _ & Ha & _). now rewrite Ha, Hrun', HA.
  - unfold onChanged.
    rewrite updateBlockingRules_alarm, updateBlockingRules_timerState.
    destruct c; exact HA.
Qed.

(** X6.  The alarm exists exactly while the timer is running, along every
    run of messages, alarms and settings changes from a first install. *)
Theorem alarm_tracks_running (events : list (Z * Event)) :
  Forall (fun te => routine (snd te)) events ->
  alarm (run events firstInstall)
  = isRunning (timerState (run events firstInstall)).
Proof.
  intros Hall.
  apply (run_preserves (fun w => alarm w = isRunning (timerState w)) routine);
    [| exact Hall | reflexivity].
  intros t e w0. apply handle_alarm_tracks_running.
Qed.

(** A start, a pause, a switch of mode, a start: the alarm is set again. *)
Lemma alarm_tracks_running_witness :
  Forall (fun te => routine (snd te)) (firstn 5 sampleRun)
  /\ alarm (run (firstn 5 sampleRun) firstInstall) = true
  /\ isRunning (timerState (run (firstn 5 sampleRun) firstInstall)) = true.
Proof.
  assert (Hall : Forall (fun te => routine (snd te)) (firstn 5 sampleRun)).
  { cbn. repeat (apply Forall_cons; [exact I |]). apply Forall_nil. }
  pose proof (alarm_tracks_running (firstn 5 sampleRun) Hall) as H.
  split; [exact Hall |].
  assert (Hrun : isRunning (timerState (run (firstn 5 sampleRun) firstInstall))
                 = true) by (vm_compute; reflexivity).
  split; [now rewrite H | exact Hrun].
Defined.

Lemma handle_rules_follow_policy (now : Z) (e : Event) (w : World) :
  routineNoReset e ->
  dynamicRules w = recomputed w ->
  dynamicRules (handle now e w) = recomputed (handle now e w).
Proof.
  intros He HR. destruct e as [r | name | | c |]; try contradiction; cbn [handle].
  - cbn [routineNoReset] in He. unfold onMessage.
    destruct (String.eqb (request.action r) "GET_STATE"); [exact HR |].
    destruct (String.eqb (request.action r) "START_TIMER").
    { cbn [fst]. destruct (isRunning (timerState w)) eqn:Hrun.
      - now rewrite startTimer_running.
      - destruct (startTimer_fields now w Hrun) as (_ & _ & _ & _ & _ & Hr).
        exact Hr. }
    destruct (String.eqb (request.action r) "PAUSE_TIMER").
    { cbn [fst]. destruct (isRunning (timerState w)) eqn:Hrun.
      - destruct (pauseTimer_fields now w Hrun) as (_ & _ & _ & _ & _ & Hr).
        exact Hr.
      - now rewrite pauseTimer_stopped. }
    destruct (String.eqb_spec (request.action r) "RESET_TIMER");
      [contradiction |].
    destruct (String.eqb (request.action r) "SWITCH_MODE"); [| exact HR].
    cbn [fst]. destruct (isRunning (timerState w)) eqn:Hrun.
    + now rewrite switchMode_running.
    + destruct (switchMode_fields (request.mode r) w Hrun)
        as (Ht & _ & _ & _ & _ & Hr).
      rewrite Hr, HR, (recomputed_stopped w Hrun).
      symmetry. apply recomputed_stopped. now rewrite Ht.
  - destruct (onAlarm_cases now name w) as [-> | [(w0 & -> & _) | H]].
    + exact HR.
    + rewrite saveState_dynamicRules.
      destruct (completeTimer_fields now w0) as (_ & _ & _ & _ & _ & Hr).
      rewrite Hr. apply recomputed_reads;
        now rewrite ?saveState_timerState, ?saveState_settingsOf.
    + destruct H as (Hrun & Hrun' & Hm & _ & _ & Hr & Hset).
      rewrite Hr, HR. apply recomputed_reads; congruence.
  - unfold onChanged. rewrite updateBlockingRules_rules.
    apply recomputed_reads;
      now rewrite ?updateBlockingRules_timerState, ?updateBlockingRules_settingsOf.
Qed.

(** X7.  As long as no RESET_TIMER is sent and the worker stays alive, the
    installed rules are the ones the policy yields for the current snapshot
    and settings: empty whenever the decision is not to block, two rules per
    listed site otherwise. *)
Theorem rules_follow_policy (events : list (Z * Event)) :
  Forall (fun te => routineNoReset (snd te)) events ->
  let w := run events firstInstall in
  dynamicRules w = recomputed w
  /\ (shouldBlock w = false -> dynamicRules w = [])
  /\ (shouldBlock w = true ->
      length (dynamicRules w) = (2 * length (blockedSites w))%nat).
Proof.
  intros Hall w.
  assert (HR : dynamicRules w = recomputed w).
  { apply (run_preserves (fun w => dynamicRules w = recomputed w) routineNoReset);
      [| exact Hall | reflexivity].
    intros t e w0. apply handle_rules_follow_policy. }
  split; [exact HR |]. rewrite HR. unfold recomputed. split; intros ->.
  - reflexivity.
  - unfold mapi. rewrite length_app, !mapi_from_length. lia.
Qed.

(** A work session is started, a site is added to the list, the session is
    paused: fourteen rules, then none. *)
Lemma rules_follow_policy_witness :
  let events :=
    [ (1000, Message (request.mk "START_TIMER" ""));
      (2000, SettingChanged (BlockedSites (default_blockedSites ++ ["news.example"]))) ] in
  Forall (fun te => routineNoReset (snd te)) events
  /\ shouldBlock (run events firstInstall) = true
  /\ length (dynamicRules (run events firstInstall)) = 14%nat
  /\ dynamicRules (run (events ++ [(3000, Message (request.mk "PAUSE_TIMER" ""))])
                       firstInstall) = [].
Proof.
  cbv zeta.
  set (events := [ (1000, Message (request.mk "START_TIMER" ""));
                   (2000, SettingChanged
                            (BlockedSites (default_blockedSites ++ ["news.example"]))) ]).
  assert (Hall : Forall (fun te => routineNoReset (snd te)) events).
  { repeat (apply Forall_cons; [cbn; first [exact I | discriminate] |]).
    apply Forall_nil. }
  assert (Hall' : Forall (fun te => routineNoReset (snd te))
                    (events ++ [(3000, Message (request.mk "PAUSE_TIMER" ""))])).
  { apply Forall_app. split; [exact Hall |].
    apply Forall_cons; [cbn; discriminate | apply Forall_nil]. }
  destruct (rules_follow_policy events Hall) as (_ & _ & Hon).
  destruct (rules_follow_policy _ Hall') as (_ & Hoff & _).
  assert (Hb : shouldBlock (run events firstInstall) = true)
    by (vm_compute; reflexivity).
  split; [exact Hall |]. split; [exact Hb |].
  split; [rewrite (Hon Hb); vm_compute; reflexivity |].
  apply Hoff. vm_compute. reflexivity.
Defined.

(** ** Restart and reinstallation *)

(** X8.  A restart of the worker alone does not bring the timer back: the
    snapshot in memory is the initializer of the script, and alarms that
    fire afterwards are ignored, whatever snapshot the storage holds, until
    [onInstalled] or a Start. *)
Theorem restart_forgets_timer (events : list (Z * Event)) (now : Z) (w : World) :
  alarmsOnly events ->
  let w' := run events (handle now Restarted w) in
  timerState w' = initial_timerState
  /\ storage w' = storage w
  /\ alarm w' = alarm w
  /\ posted w' = posted w
  /\ notifications w' = notifications w
  /\ forall t, snd (onMessage t (request.mk "GET_STATE" "") w')
               = State initial_timerState.
Proof.
  intros Hall w'.
  assert (G : forall w1, timerState w1 = initial_timerState ->
                         run events w1 = w1).
  { induction events as [| [t e] rest IH]; intros w1 H1; [reflexivity |].
    inversion Hall as [| x l He Hrest]; subst. cbn [snd] in He. subst e.
    cbn [run handle]. rewrite onAlarm_ignored.
    - now apply IH.
    - rewrite H1. reflexivity. }
  unfold w'. rewrite G by reflexivity. cbn [handle]. repeat split.
Qed.

(** The running work session after a restart: three alarms change nothing,
    and the popup is told the timer is stopped at 25 minutes. *)
Lemma restart_forgets_timer_witness :
  alarmsOnly (ticks 20000 3)
  /\ stored_timerState (storage runningWork)
     = Some (mkTimerState "pomodoro" (Int 1500) true (Some 10000) None)
  /\ timerState (run (ticks 20000 3) (handle 20000 Restarted runningWork))
     = mkTimerState "pomodoro" (Int 1500) false None None.
Proof.
  assert (Hall : alarmsOnly (ticks 20000 3)) by (repeat constructor).
  destruct (restart_forgets_timer (ticks 20000 3) 20000 runningWork Hall)
    as (Ht & _).
  split; [exact Hall |]. split; [reflexivity | exact Ht].
Defined.

(** X9.  [onInstalled] leaves no blocking rule, also when the snapshot it
    reloads is running and the policy says to block: the second listener
    removes the rules and the first never recomputes them on a resumed
    timer. *)
Theorem onInstalled_leaves_no_rules (now : Z) (w : World) :
  let w' := handle now Installed w in
  dynamicRules w' = []
  /\ (shouldBlock w' = true -> blockedSites w' <> [] ->
      dynamicRules w' <> recomputed w').
Proof.
  cbv zeta. cbn [handle].
  assert (H : dynamicRules (onInstalled_blocking (onInstalled_timerState now w)) = [])
    by apply onInstalled_blocking_rules.
  split; [exact H |]. intros Hb Hsites. rewrite H. unfold recomputed. rewrite Hb.
  destruct (blockedSites _) as [| site rest]; [contradiction | discriminate].
Qed.

(** The work session started at 10000 is resumed by [onInstalled] at 70000
    with blocking decided and no rule installed. *)
Lemma onInstalled_leaves_no_rules_witness :
  let w' := handle 70000 Installed reactivated in
  isRunning (timerState w') = true
  /\ shouldBlock w' = true
  /\ blockedSites w' <> []
  /\ dynamicRules w' = []
  /\ length (recomputed w') = 12%nat.
Proof.
  cbv zeta.
  destruct (onInstalled_leaves_no_rules 70000 reactivated) as [Hnone _].
  split; [reflexivity |]. split; [reflexivity |].
  split; [discriminate |]. split; [exact Hnone | reflexivity].
Defined.

(** ** The rule set *)

Lemma enableBlocking_world (sites : list string) (w : World) :
  enableBlocking sites w
  = mkWorld (timerState w) (storage w) (alarm w)
            (dynamicRules (enableBlocking sites w)) (posted w)
            (notifications w) (badgeText w) (badgeColor w).
Proof. reflexivity. Qed.

(** X10.  Recomputing the rules twice is recomputing them once, and the
    result does not depend on the rules that were installed before. *)
Theorem updateBlockingRules_idempotent (w : World) (rules : list Rule) :
  updateBlockingRules (updateBlockingRules w) = updateBlockingRules w
  /\ dynamicRules
       (updateBlockingRules
          (mkWorld (timerState w) (storage w) (alarm w) rules (posted w)
                   (notifications w) (badgeText w) (badgeColor w)))
     = dynamicRules (updateBlockingRules w).
Proof.
  split.
  - fields w. unfold updateBlockingRules at 2 3.
    match goal with |- context [shouldBlock ?x] => destruct (shouldBlock x) eqn:Hb end.
    + rewrite enableBlocking_world. unfold updateBlockingRules.
      unfold shouldBlock, blockingEnabled, blockDuringWork, blockedSites in *.
      cbn [timerState storage] in *. rewrite Hb.
      rewrite (enableBlocking_world _ (mkWorld _ _ _ _ _ _ _ _)).
      cbn [timerState storage alarm posted notifications badgeText badgeColor].
      rewrite !enableBlocking_rules. reflexivity.
    + pose proof (disableBlocking_rules
                    (mkWorld (mkTimerState mode0 timeRemaining0 isRunning0
                                           startedAt0 pausedAt0)
                             (mkStorage stored_timerState0 stored_blockingEnabled0
                                        stored_blockDuringWork0 stored_blockedSites0)
                             alarm0 dynamicRules0 posted0 notifications0
                             badgeText0 badgeColor0)) as Hrules.
      unfold disableBlocking in *. cbn [dynamicRules] in *.
      destruct (0 <? Z.of_nat (length (map id dynamicRules0))) eqn:E.
      * unfold chrome.updateDynamicRules in *. cbn [dynamicRules] in Hrules.
        cbn [timerState storage alarm dynamicRules posted notifications
               badgeText badgeColor].
        rewrite Hrules. unfold updateBlockingRules.
        unfold shouldBlock, blockingEnabled, blockDuringWork in *.
        cbn [timerState storage] in *. rewrite Hb.
        unfold disableBlocking. reflexivity.
      * unfold updateBlockingRules. rewrite Hb. unfold disableBlocking.
        cbn [dynamicRules]. rewrite E. reflexivity.
  - rewrite !updateBlockingRules_rules. apply recomputed_ext; reflexivity.
Qed.

Lemma map_id_mapi_from (f : string -> Z -> Rule) (c : Z) (sites : list string) :
  (forall site i, id (f site i) = c + i + 1) ->
  forall i, map id (mapi_from i f sites) = zseq (c + i + 1) (length sites).
Proof.
  intros Hid. unfold zseq.
  induction sites as [| site rest IH]; intros i; [reflexivity |].
  cbn [mapi_from map length seq]. rewrite Hid, IH. f_equal; [cbn; lia |].
  rewrite <- seq_shift, map_map. apply map_ext. intros k. lia.
Qed.

Lemma zseq_app (a : Z) (n m : nat) :
  (zseq a n ++ zseq (a + Z.of_nat n) m)%list = zseq a (n + m).
Proof.
  unfold zseq. rewrite seq_app, map_app. f_equal.
  generalize 0%nat as s. induction m as [| m IH]; intros s; [reflexivity |].
  cbn [seq map]. f_equal; [lia |].
  rewrite IH. reflexivity.
Qed.

Lemma in_zseq (a : Z) (n : nat) (x : Z) :
  In x (zseq a n) <-> a <= x < a + Z.of_nat n.
Proof.
  unfold zseq. rewrite in_map_iff. split.
  - intros (k & <- & Hk). apply in_seq in Hk. lia.
  - intros Hx. exists (Z.to_nat (x - a)). split; [lia |].
    apply in_seq. lia.
Qed.

Lemma zseq_NoDup (n : nat) : forall a, NoDup (zseq a n).
Proof.
  induction n as [| n IH]; intros a; [constructor |].
  replace (zseq a (S n)) with (a :: zseq (a + 1) n).
  - constructor; [| apply IH]. rewrite in_zseq. lia.
  - unfold zseq. cbn [seq map]. f_equal; [lia |].
    rewrite <- seq_shift, map_map. apply map_ext. intros k. lia.
Qed.

(** X11.  The rules [enableBlocking] installs carry the ids 1, 2, ..., 2n
    in order, for n listed sites: they are pairwise distinct, whatever rules
    were installed before and also when a site is listed twice. *)
Theorem enableBlocking_ids (sites : list string) (w : World) :
  let rules := dynamicRules (enableBlocking sites w) in
  map id rules = zseq 1 (2 * length sites)
  /\ NoDup (map id rules)
  /\ forall r, In r rules -> 1 <= id r <= 2 * Z.of_nat (length sites).
Proof.
  cbv zeta. rewrite enableBlocking_rules.
  assert (H : map id
                (mapi (fun site index => subdomainRule site (index + 1)) sites
                 ++ mapi (fun site index =>
                            bareRule site (Z.of_nat (length sites) + index + 1))
                         sites)
              = zseq 1 (2 * length sites)).
  { unfold mapi. rewrite map_app.
    rewrite (map_id_mapi_from _ 0) by (intros; cbn; lia).
    rewrite (map_id_mapi_from _ (Z.of_nat (length sites)))
      by (intros; reflexivity).
    replace (0 + 0 + 1) with 1 by lia.
    replace (Z.of_nat (length sites) + 0 + 1)
      with (1 + Z.of_nat (length sites)) by lia.
    rewrite zseq_app. f_equal. lia. }
  rewrite H. split; [reflexivity |]. split; [apply zseq_NoDup |].
  intros r Hr. apply (in_map id) in Hr. rewrite H in Hr.
  apply in_zseq in Hr. lia.
Qed.

(** ** Session records *)

(** X12.  A run that is paused before it is reset leaves no record: Reset
    on the running timer posts the record of the abandoned run, Reset after
    a Pause posts nothing, although both leave the same snapshot. *)
Theorem reset_after_pause_posts_nothing (t1 t2 : Z) (w : World) :
  isRunning (timerState w) = true ->
  truthy (startedAt (timerState w)) = true ->
  posted (resetTimer t2 (pauseTimer t1 w)) = posted w
  /\ posted (resetTimer t2 w) = (posted w ++ [abandoned t2 (timerState w)])%list
  /\ timerState (resetTimer t2 (pauseTimer t1 w)) = timerState (resetTimer t2 w).
Proof.
  intros Hrun Hstart.
  destruct (pauseTimer_fields t1 w Hrun) as (Ht & _ & _ & Hp & _).
  destruct (resetTimer_fields t2 (pauseTimer t1 w)) as (Ht' & _ & _ & Hp' & _).
  destruct (resetTimer_fields t2 w) as (Ht2 & _ & _ & Hp2 & _).
  rewrite Hp', Ht', Hp2, Ht2, Ht, Hp, Hrun, Hstart.
  cbn [isRunning andb mode]. rewrite app_nil_r. repeat split.
Qed.

(** The work session started at 10000, paused at 20000, reset at 30000. *)
Lemma reset_after_pause_posts_nothing_witness :
  isRunning (timerState runningWork) = true
  /\ truthy (startedAt (timerState runningWork)) = true
  /\ posted (resetTimer 30000 (pauseTimer 20000 runningWork)) = []
  /\ length (posted (resetTimer 30000 runningWork)) = 1%nat.
Proof.
  destruct (reset_after_pause_posts_nothing 20000 30000 runningWork
              eq_refl eq_refl) as (Hnone & Hone & _).
  split; [reflexivity |]. split; [reflexivity |].
  split; [exact Hnone |]. rewrite Hone. reflexivity.
Defined.

(** X13.  No command raises a notification, and the only command that posts
    a session record is RESET_TIMER on a timer that is running with a start
    time recorded; it posts exactly the record of the abandoned run. *)
Theorem commands_post_only_on_reset (now : Z) (r : request.t) (w : World) :
  let w' := fst (onMessage now r w) in
  notifications w' = notifications w
  /\ (posted w' = posted w
      \/ (request.action r = "RESET_TIMER"
          /\ isRunning (timerState w) = true
          /\ truthy (startedAt (timerState w)) = true
          /\ posted w' = (posted w ++ [abandoned now (timerState w)])%list)).
Proof.
  cbv zeta. unfold onMessage.
  destruct (String.eqb (request.action r) "GET_STATE"); [now split; [| left] |].
  destruct (String.eqb (request.action r) "START_TIMER").
  { cbn [fst]. destruct (isRunning (timerState w)) eqn:Hrun.
    - rewrite startTimer_running by exact Hrun. now split; [| left].
    - destruct (startTimer_fields now w Hrun) as (_ & _ & _ & Hp & Hn & _).
      split; [exact Hn | now left]. }
  destruct (String.eqb (request.action r) "PAUSE_TIMER").
  { cbn [fst]. destruct (isRunning (timerState w)) eqn:Hrun.
    - destruct (pauseTimer_fields now w Hrun) as (_ & _ & _ & Hp & Hn & _).
      split; [exact Hn | now left].
    - rewrite pauseTimer_stopped by exact Hrun. now split; [| left]. }
  destruct (String.eqb_spec (request.action r) "RESET_TIMER") as [Ha | _].
  { cbn [fst]. destruct (resetTimer_fields now w) as (_ & _ & _ & Hp & Hn & _).
    split; [exact Hn |]. rewrite Hp.
    destruct (isRunning (timerState w)); cbn [andb];
      [| left; apply app_nil_r].
    destruct (truthy (startedAt (timerState w)));
      [right; repeat split; exact Ha | left; apply app_nil_r]. }
  destruct (String.eqb (request.action r) "SWITCH_MODE"); [| now split; [| left]].
  cbn [fst]. destruct (isRunning (timerState w)) eqn:Hrun.
  - rewrite switchMode_running by exact Hrun. now split; [| left].
  - destruct (switchMode_fields (request.mode r) w Hrun) as (_ & _ & _ & Hp & Hn & _).
    split; [exact Hn | now left].
Qed.

(** ** Reconciliation *)

(** X14.  Reconciliation agrees with the ticks of an uninterrupted run: a
    timer started at [t0] from the full duration [n] of its mode and ticked
    [k < n] times has [n - k] seconds left, and so a reconciliation says at
    any time from [k] to less than [k + 1] seconds after [t0]. *)
Theorem reconciliation_agrees_with_ticks (events : list (Z * Event))
        (t0 now n : Z) (w : World) :
  alarmsOnly events ->
  isRunning (timerState w) = false ->
  timeRemaining (timerState w) = Int n ->
  durationSeconds (mode (timerState w)) = Int n ->
  Z.of_nat (length events) < n ->
  t0 + 1000 * Z.of_nat (length events) <= now
    < t0 + 1000 * Z.of_nat (length events) + 1000 ->
  let w' := run events (startTimer t0 w) in
  timeRemaining (timerState w') = Int (n - Z.of_nat (length events))
  /\ reconciled now (timerState w') = timeRemaining (timerState w').
Proof.
  intros Hall Hstop Hn Hdur Hlen Hnow w'.
  destruct (startTimer_fields t0 w Hstop) as (Ht & _).
  destruct (alarms_count_down events (startTimer t0 w) n Hall) as (Ht' & _);
    [now rewrite Ht | now rewrite Ht | exact Hlen |].
  fold w' in Ht'. rewrite Ht', Ht. cbn [timeRemaining mode startedAt].
  split; [reflexivity |].
  unfold reconciled. cbn [mode startedAt timeValue].
  fold (durationSeconds (mode (timerState w))). rewrite Hdur.
  unfold Math_floor_div. cbn [sub Math_max]. f_equal.
  set (k := Z.of_nat (length events)) in *.
  assert (He : (now - t0) / 1000 = k).
  { symmetry. apply (Z.div_unique_pos _ _ k (now - t0 - 1000 * k)); lia. }
  rewrite He. lia.
Qed.

(** The work session from a first install, started at 10000 and ticked three
    times, is reconciled at 13400 to the 1497 seconds the ticks left. *)
Lemma reconciliation_agrees_with_ticks_witness :
  alarmsOnly (ticks 10000 3)
  /\ durationSeconds (mode (timerState firstInstall)) = Int 1500
  /\ reconciled 13400 (timerState (run (ticks 10000 3) (startTimer 10000 firstInstall)))
     = Int 1497.
Proof.
  assert (Hall : alarmsOnly (ticks 10000 3)) by (repeat constructor).
  assert (Hlen : Z.of_nat (length (ticks 10000 3)) < 1500) by (cbn; lia).
  assert (Hnow : 10000 + 1000 * Z.of_nat (length (ticks 10000 3)) <= 13400
                 < 10000 + 1000 * Z.of_nat (length (ticks 10000 3)) + 1000)
    by (cbn; lia).
  destruct (reconciliation_agrees_with_ticks (ticks 10000 3) 10000 13400 1500
              firstInstall Hall eq_refl eq_refl eq_refl Hlen Hnow)
    as (Htr & Hrec).
  split; [exact Hall |]. split; [reflexivity |].
  rewrite Hrec, Htr. reflexivity.
Defined.

(** X15.  When the stored snapshot is running in a mode the configuration
    does not have, [onInstalled] completes it at once, whatever time has
    passed: the reconciled value is [NaN], which is not greater than 0.  The
    record it posts has no duration, and the timer ends stopped in work mode
    with 1500 seconds. *)
Theorem reactivation_completes_unrecognized_mode (now : Z) (loaded : TimerState)
        (w : World) :
  stored_timerState (storage w) = Some loaded ->
  isRunning loaded = true ->
  truthy (startedAt loaded) = true ->
  ~ recognized (mode loaded) ->
  let w' := onInstalled_timerState now w in
  reconciled now loaded = NaN
  /\ timerState w' = mkTimerState "pomodoro" (Int 1500) false None None
  /\ alarm w' = false
  /\ (exists record,
        posted w' = (posted w ++ [record])%list
        /\ completed record = true
        /\ session_type record = mode loaded
        /\ forall minutes, duration_minutes record <> Own minutes).
Proof.
  intros Hstored Hrun Hstart Hm w'.
  assert (Hrec : reconciled now loaded = NaN).
  { unfold reconciled. now rewrite (unrecognized_config _ Hm). }
  assert (Hw' : w' = completeTimer now (set_timeRemaining NaN (set_timerState loaded w))).
  { unfold w', onInstalled_timerState. rewrite Hstored.
    cbn [timerState set_timerState]. rewrite Hrun, Hstart. cbn [andb].
    unfold resumeTimer. cbn [timerState set_timerState]. rewrite Hrun, Hrec.
    reflexivity. }
  split; [exact Hrec |]. rewrite Hw'.
  destruct (completeTimer_fields now
              (set_timeRemaining NaN (set_timerState loaded w)))
    as (Ht & _ & Ha & Hp & _).
  rewrite Ht, Ha, Hp.
  cbn [set_timeRemaining set_timerState timerState posted mode].
  assert (Hnext : nextMode (mode loaded) = "pomodoro").
  { unfold nextMode. destruct (String.eqb_spec (mode loaded) "pomodoro") as [E | _];
      [| reflexivity].
    exfalso. apply Hm. now left. }
  rewrite Hnext. split; [reflexivity |]. split; [reflexivity |].
  eexists. split; [reflexivity |]. cbn. repeat split.
  intros minutes E. apply Hm. exact (config_recognized _ _ E).
Qed.

(** A timer started in a mode the configuration does not have is found
    completed by [onInstalled] one second later. *)
Lemma reactivation_completes_unrecognized_mode_witness :
  let w := handle 2000 Restarted
             (startTimer 1000 (switchMode "deepWork" firstInstall)) in
  stored_timerState (storage w)
  = Some (mkTimerState "deepWork" NaN true (Some 1000) None)
  /\ ~ recognized "deepWork"
  /\ timerState (onInstalled_timerState 2000 w)
     = mkTimerState "pomodoro" (Int 1500) false None None.
Proof.
  cbv zeta.
  assert (Hm : ~ recognized "deepWork").
  { intros [H | [H | H]]; discriminate. }
  destruct (reactivation_completes_unrecognized_mode 2000
              (mkTimerState "deepWork" NaN true (Some 1000) None)
              (handle 2000 Restarted
                 (startTimer 1000 (switchMode "deepWork" firstInstall)))
              eq_refl eq_refl eq_refl Hm) as (_ & Ht & _).
  split; [reflexivity |]. split; [exact Hm | exact Ht].
Defined.

(** * Properties of the settings page *)

Lemma afterPrefix_Some (p : string) :
  forall s rest, settings.afterPrefix p s = Some rest -> s = (p ++ rest)%string.
Proof.
  induction p as [| a p IH]; intros s rest H.
  - cbn in H. now injection H as <-.
  - destruct s as [| b s]; [discriminate |]. cbn in H.
    destruct (Ascii.eqb_spec a b) as [<- | _]; [| discriminate].
    cbn. f_equal. now apply IH.
Qed.

Lemma afterPrefix_append (p : string) :
  forall rest, settings.afterPrefix p (p ++ rest) = Some rest.
Proof.
  induction p as [| a p IH]; intros rest; [reflexivity |].
  cbn. now rewrite Ascii.eqb_refl.
Qed.

Lemma noSlash_append (a b : string) :
  noSlash (a ++ b) <-> noSlash a /\ noSlash b.
Proof.
  unfold noSlash.
  assert (H : forall c, In c (list_ascii_of_string (a ++ b))
                        <-> In c (list_ascii_of_string a)
                            \/ In c (list_ascii_of_string b)).
  { intros c. induction a as [| x a IH]; cbn; [tauto |]. rewrite IH. tauto. }
  split.
  - intros Hab. split; intros c Hc; apply Hab, H; tauto.
  - intros [Ha Hb] c Hc. apply H in Hc. destruct Hc; auto.
Qed.

Lemma split_slash_0_noSlash (s : string) : noSlash (settings.split_slash_0 s).
Proof.
  induction s as [| a s IH]; intros c Hc; [contradiction |].
  cbn in Hc. destruct (Ascii.eqb_spec a "/") as [-> | Hne]; [contradiction |].
  cbn in Hc. destruct Hc as [<- | Hc]; [exact Hne | now apply IH].
Qed.

Lemma split_slash_0_domain (d : string) :
  noSlash d ->
  settings.split_slash_0 d = d
  /\ forall path, settings.split_slash_0 (d ++ "/" ++ path) = d.
Proof.
  induction d as [| a d IH]; intros Hd; [split; reflexivity |].
  assert (Ha : Ascii.eqb a "/" = false).
  { apply Ascii.eqb_neq. apply Hd. now left. }
  destruct IH as [IH1 IH2].
  { intros c Hc. apply Hd. now right. }
  split.
  - cbn. now rewrite Ha, IH1.
  - intros path. cbn. rewrite Ha. f_equal. apply IH2.
Qed.

Lemma replace_scheme_noSlash (d : string) :
  noSlash d -> settings.replace_scheme d = d.
Proof.
  intros Hd. unfold settings.replace_scheme.
  destruct (settings.afterPrefix "https://" d) as [rest |] eqn:E.
  { apply afterPrefix_Some in E. exfalso. subst d.
    apply (Hd "/"%char); [| reflexivity]. cbn. tauto. }
  destruct (settings.afterPrefix "http://" d) as [rest |] eqn:E';
    [| reflexivity].
  apply afterPrefix_Some in E'. exfalso. subst d.
  apply (Hd "/"%char); [| reflexivity]. cbn. tauto.
Qed.

(** X16.  The site [addSite] stores never contains a slash.  A URL with
    the scheme http or https, the prefix "www." and a path is reduced to its
    domain, and a bare domain that does not start with "www." is stored as
    it is. *)
Theorem cleanSite_domain (d : string) :
  (forall site, noSlash (settings.cleanSite site))
  /\ (noSlash d ->
      (forall path,
          settings.cleanSite ("https://www." ++ d ++ "/" ++ path) = d
          /\ settings.cleanSite ("http://www." ++ d ++ "/" ++ path) = d)
      /\ settings.cleanSite ("https://www." ++ d) = d
      /\ settings.cleanSite ("www." ++ d) = d
      /\ (settings.afterPrefix "www." d = None -> settings.cleanSite d = d)).
Proof.
  split; [intros site; apply split_slash_0_noSlash |].
  intros Hd. destruct (split_slash_0_domain d Hd) as [H1 H2].
  assert (Hwww : forall x, settings.replace_www ("www." ++ x) = x).
  { intros x. unfold settings.replace_www. now rewrite afterPrefix_append. }
  assert (Hs : forall x, settings.replace_scheme ("https://" ++ x) = x).
  { intros x. unfold settings.replace_scheme. now rewrite afterPrefix_append. }
  assert (Hh : forall x, settings.replace_scheme ("http://" ++ x) = x).
  { intros x. reflexivity. }
  split; [| split; [| split]].
  - intros path. unfold settings.cleanSite. split.
    + change ("https://www." ++ d ++ "/" ++ path)%string
        with ("https://" ++ ("www." ++ (d ++ "/" ++ path)))%string.
      rewrite Hs, Hwww. apply H2.
    + change ("http://www." ++ d ++ "/" ++ path)%string
        with ("http://" ++ ("www." ++ (d ++ "/" ++ path)))%string.
      rewrite Hh, Hwww. apply H2.
  - unfold settings.cleanSite.
    change ("https://www." ++ d)%string with ("https://" ++ ("www." ++ d))%string.
    now rewrite Hs, Hwww.
  - unfold settings.cleanSite. rewrite replace_scheme_noSlash.
    + now rewrite Hwww.
    + apply noSlash_append. split; [| exact Hd].
      intros c Hc. cbn in Hc.
      repeat (destruct Hc as [<- | Hc]; [discriminate |]). contradiction.
  - intros Hnw. unfold settings.cleanSite, settings.replace_www.
    now rewrite (replace_scheme_noSlash d Hd), Hnw.
Qed.

(** A pasted address of a video. *)
Lemma cleanSite_domain_witness :
  noSlash "youtube.com"
  /\ settings.cleanSite "https://www.youtube.com/watch?v=1" = "youtube.com"
  /\ settings.cleanSite "youtube.com" = "youtube.com".
Proof.
  assert (Hd : noSlash "youtube.com").
  { intros c Hc. cbn in Hc.
    repeat (destruct Hc as [<- | Hc]; [discriminate |]). contradiction. }
  destruct (cleanSite_domain "youtube.com") as [_ H].
  destruct (H Hd) as (Hurl & _ & _ & Hbare).
  split; [exact Hd |].
  split; [exact (proj1 (Hurl "watch?v=1")) | exact (Hbare eq_refl)].
Defined.

Lemma includes_In (sites : list string) (x : string) :
  settings.includes sites x = true <-> In x sites.
Proof.
  unfold settings.includes. rewrite existsb_exists. split.
  - intros (y & Hy & E). apply String.eqb_eq in E. now subst.
  - intros H. exists x. split; [exact H | apply String.eqb_refl].
Qed.

(** [addSite] by cases. *)
Lemma addSite_cases (site : string) (p : settings.Page) (w : World) :
  let c := settings.cleanSite site in
  let old := sitesOf p w in
  (site = "" \/ In c old) /\ settings.addSite site p w = (p, w)
  \/ (site <> "" /\ ~ In c old
      /\ exists p',
          settings.addSite site p w
          = (p', storage_set_setting (BlockedSites (old ++ [c])) w)).
Proof.
  cbv zeta. unfold settings.addSite, sitesOf, settings.storage_set_blockedSites.
  destruct (String.eqb_spec site "") as [-> | Hne]; [left; split; [now left | reflexivity] |].
  destruct (stored_blockedSites (storage w)) as [sites |].
  - destruct (settings.includes sites (settings.cleanSite site)) eqn:E; cbn [negb].
    + left. split; [right; now apply includes_In | reflexivity].
    + right. split; [exact Hne |]. split.
      * intros H. apply includes_In in H. congruence.
      * eexists. reflexivity.
  - destruct (settings.includes (settings.DEFAULT_BLOCKED_SITES p)
                                (settings.cleanSite site)) eqn:E; cbn [negb].
    + left. split; [right; now apply includes_In | reflexivity].
    + right. split; [exact Hne |]. split.
      * intros H. apply includes_In in H. congruence.
      * eexists. reflexivity.
Qed.

Lemma sitesOf_stored (p : settings.Page) (w : World) (sites : list string) :
  sitesOf p (storage_set_setting (BlockedSites sites) w) = sites.
Proof. reflexivity. Qed.

Lemma NoDup_snoc (l : list string) (x : string) :
  NoDup l -> ~ In x l -> NoDup (l ++ [x]).
Proof.
  induction l as [| y l IH]; intros Hnd Hx; cbn.
  - constructor; [intros [] | constructor].
  - inversion Hnd as [| y' l' Hy Hl]; subst. constructor.
    + intros H. apply in_app_or in H. destruct H as [H | [H | []]].
      * contradiction.
      * apply Hx. now left.
    + apply IH; [exact Hl |]. intros H. apply Hx. now right.
Qed.

(** X17.  [addSite] never lists a site twice and never drops one: a list
    without duplicates stays so, every site listed before is listed after,
    in the same order with the new one last, the cleaned site is listed
    afterwards unless the input was empty, and adding the same input again
    changes nothing. *)
Theorem addSite_no_duplicates (site : string) (p : settings.Page) (w : World) :
  let old := sitesOf p w in
  let p' := fst (settings.addSite site p w) in
  let w' := snd (settings.addSite site p w) in
  let new := sitesOf p' w' in
  (new = old \/ new = (old ++ [settings.cleanSite site])%list)
  /\ (NoDup old -> NoDup new)
  /\ (site <> "" -> In (settings.cleanSite site) new)
  /\ settings.addSite site p' w' = (p', w')
  /\ timerState w' = timerState w
  /\ dynamicRules w' = dynamicRules w.
Proof.
  cbv zeta.
  destruct (addSite_cases site p w) as [[Hno E] | (Hne & Hnew & p' & E)];
    rewrite E; cbn [fst snd].
  - split; [now left |]. split; [auto |].
    split; [intros Hne; destruct Hno; [contradiction | assumption] |].
    split; [exact E |]. split; reflexivity.
  - rewrite sitesOf_stored. split; [now right |]. split.
    + intros Hnd. now apply NoDup_snoc.
    + split; [intros _; apply in_or_app; right; now left |].
      split; [| split; reflexivity].
      destruct (addSite_cases site p'
                  (storage_set_setting
                     (BlockedSites (sitesOf p w ++ [settings.cleanSite site])) w))
        as [[_ E'] | (_ & Hnew' & _)]; [exact E' |].
      exfalso. apply Hnew'. rewrite sitesOf_stored.
      apply in_or_app. right. now left.
Qed.

(** A site is added on a never-written storage: the six defaults and the new
    site are stored, and a second add changes nothing. *)
Lemma addSite_no_duplicates_witness :
  let r := settings.addSite "https://www.news.example/today" settings.initialPage
                            firstInstall in
  NoDup (sitesOf settings.initialPage firstInstall)
  /\ sitesOf (fst r) (snd r)
     = [ "facebook.com"; "instagram.com"; "reddit.com"; "tiktok.com"; "x.com";
         "youtube.com"; "news.example" ]
  /\ NoDup (sitesOf (fst r) (snd r))
  /\ settings.addSite "https://www.news.example/today" (fst r) (snd r) = r.
Proof.
  cbv zeta.
  assert (Hnd : NoDup (sitesOf settings.initialPage firstInstall)).
  { cbn. repeat (constructor; [cbn; intros H;
                               repeat (destruct H as [H | H]; [discriminate |]);
                               exact H |]).
    constructor. }
  destruct (addSite_no_duplicates "https://www.news.example/today"
              settings.initialPage firstInstall) as (_ & Hkeep & _ & Hidem & _).
  split; [exact Hnd |]. split; [reflexivity |].
  split; [exact (Hkeep Hnd) |].
  rewrite Hidem. reflexivity.
Defined.

Lemma indexOf_from_spec (x : string) (l : list string) :
  forall i,
    0 <= i ->
    (~ In x l -> settings.indexOf_from i l x = -1)
    /\ (In x l ->
        i <= settings.indexOf_from i l x
        /\ (firstn (Z.to_nat (settings.indexOf_from i l x - i)) l
            ++ skipn (Z.to_nat (settings.indexOf_from i l x - i) + 1) l)%list
           = removeFirst x l).
Proof.
  induction l as [| y l IH]; intros i Hi.
  - split; [reflexivity | contradiction].
  - cbn [settings.indexOf_from removeFirst].
    destruct (String.eqb_spec y x) as [-> | Hne].
    + split; [intros H; exfalso; apply H; now left |].
      intros _. split; [lia |]. rewrite Z.sub_diag. reflexivity.
    + destruct (IH (i + 1)) as [IHno IHin]; [lia |]. split.
      * intros H. apply IHno. intros Hin. apply H. now right.
      * intros [E | Hin]; [congruence |].
        destruct (IHin Hin) as [Hle Heq]. split; [lia |].
        replace (Z.to_nat (settings.indexOf_from (i + 1) l x - i))
          with (S (Z.to_nat (settings.indexOf_from (i + 1) l x - (i + 1))))
          by lia.
        cbn [firstn skipn Nat.add app]. f_equal. exact Heq.
Qed.

Lemma removeFirst_absent (x : string) (l : list string) :
  ~ In x l -> removeFirst x l = l.
Proof.
  induction l as [| y l IH]; intros H; [reflexivity |]. cbn.
  destruct (String.eqb_spec y x) as [-> | _]; [exfalso; apply H; now left |].
  f_equal. apply IH. intros Hin. apply H. now right.
Qed.

Lemma removeFirst_snoc (x : string) (l : list string) :
  ~ In x l -> removeFirst x (l ++ [x]) = l.
Proof.
  induction l as [| y l IH]; intros H; cbn.
  - now rewrite String.eqb_refl.
  - destruct (String.eqb_spec y x) as [-> | _]; [exfalso; apply H; now left |].
    f_equal. apply IH. intros Hin. apply H. now right.
Qed.

Lemma removeFirst_NoDup (x : string) (l : list string) :
  NoDup l -> ~ In x (removeFirst x l) /\ NoDup (removeFirst x l).
Proof.
  induction l as [| y l IH]; intros Hnd; cbn; [split; [tauto | constructor] |].
  inversion Hnd as [| y' l' Hy Hl]; subst.
  destruct (String.eqb_spec y x) as [-> | Hne]; [split; assumption |].
  destruct (IH Hl) as [Hx Hnd']. split.
  - intros [E | Hin]; [congruence | contradiction].
  - constructor; [| exact Hnd']. intros Hin. apply Hy.
    clear - Hin. induction l as [| z l IHl]; [contradiction |]. cbn in Hin.
    destruct (String.eqb z x); [now right |].
    destruct Hin as [<- | Hin]; [now left | right; now apply IHl].
Qed.

Lemma removeSite_sites (site : string) (p : settings.Page) (w : World) :
  let r := settings.removeSite site p w in
  (~ In site (sitesOf p w) -> r = (p, w))
  /\ (In site (sitesOf p w) ->
      snd r = storage_set_setting (BlockedSites (removeFirst site (sitesOf p w))) w).
Proof.
  cbv zeta.
  unfold settings.removeSite, sitesOf, settings.storage_set_blockedSites,
    settings.indexOf, settings.splice_1.
  destruct (stored_blockedSites (storage w)) as [sites |].
  - destruct (indexOf_from_spec site sites 0 ltac:(lia)) as [Hno Hin]. split.
    + intros H. now rewrite (Hno H).
    + intros H. destruct (Hin H) as [Hle Heq]. rewrite Z.sub_0_r in Heq.
      replace (settings.indexOf_from 0 sites site >? -1) with true
        by (symmetry; apply Z.gtb_lt; lia).
      cbn [snd]. now rewrite Heq.
  - destruct (indexOf_from_spec site (settings.DEFAULT_BLOCKED_SITES p) 0
                                ltac:(lia)) as [Hno Hin]. split.
    + intros H. now rewrite (Hno H).
    + intros H. destruct (Hin H) as [Hle Heq]. rewrite Z.sub_0_r in Heq.
      replace (settings.indexOf_from 0 (settings.DEFAULT_BLOCKED_SITES p) site
               >? -1) with true by (symmetry; apply Z.gtb_lt; lia).
      cbn [snd]. now rewrite Heq.
Qed.

(** X18.  [removeSite] takes the first occurrence of the site out of the
    list and leaves the other sites in their order; it writes nothing when
    the site is not listed; from a list without duplicates the site is gone
    afterwards.  It never touches the timer. *)
Theorem removeSite_removes_first (site : string) (p : settings.Page) (w : World) :
  let old := sitesOf p w in
  let p' := fst (settings.removeSite site p w) in
  let w' := snd (settings.removeSite site p w) in
  sitesOf p' w' = removeFirst site old
  /\ (~ In site old -> settings.removeSite site p w = (p, w))
  /\ (In site old -> length (sitesOf p' w') = (length old - 1)%nat)
  /\ (NoDup old -> ~ In site (sitesOf p' w'))
  /\ timerState w' = timerState w.
Proof.
  cbv zeta. destruct (removeSite_sites site p w) as [Hno Hin].
  assert (Hsites : sitesOf (fst (settings.removeSite site p w))
                           (snd (settings.removeSite site p w))
                   = removeFirst site (sitesOf p w)).
  { destruct (in_dec string_dec site (sitesOf p w)) as [H | H].
    - rewrite (Hin H). apply sitesOf_stored.
    - rewrite (Hno H). cbn [fst snd]. symmetry. now apply removeFirst_absent. }
  split; [exact Hsites |]. split; [exact Hno |]. rewrite Hsites.
  split; [| split].
  - intros H. clear - H. induction (sitesOf p w) as [| y l IH]; [contradiction |].
    cbn. destruct (String.eqb_spec y site) as [-> | Hne]; [lia |].
    destruct H as [E | H]; [congruence |]. specialize (IH H). cbn.
    destruct l; [contradiction | cbn in *; lia].
  - intros Hnd. apply (removeFirst_NoDup site _ Hnd).
  - destruct (in_dec string_dec site (sitesOf p w)) as [H | H].
    + now rewrite (Hin H).
    + now rewrite (Hno H).
Qed.

(** "x.com" is removed on a never-written storage: five defaults are stored. *)
Lemma removeSite_removes_first_witness :
  let r := settings.removeSite "x.com" settings.initialPage firstInstall in
  In "x.com" (sitesOf settings.initialPage firstInstall)
  /\ sitesOf (fst r) (snd r)
     = [ "facebook.com"; "instagram.com"; "reddit.com"; "tiktok.com";
         "youtube.com" ]
  /\ length (sitesOf (fst r) (snd r)) = 5%nat.
Proof.
  cbv zeta.
  assert (Hin : In "x.com" (sitesOf settings.initialPage firstInstall))
    by (cbn; tauto).
  destruct (removeSite_removes_first "x.com" settings.initialPage firstInstall)
    as (Hs & _ & Hlen & _).
  split; [exact Hin |]. split; [rewrite Hs; reflexivity |].
  rewrite (Hlen Hin). reflexivity.
Defined.

(** X19.  Adding a site that was not listed and removing it again gives
    back the stored list as it was (the list the page worked on, when
    nothing was stored before). *)
Theorem add_then_remove (site : string) (p : settings.Page) (w : World) :
  site <> "" ->
  ~ In (settings.cleanSite site) (sitesOf p w) ->
  let added := settings.addSite site p w in
  let removed := settings.removeSite (settings.cleanSite site) (fst added) (snd added) in
  sitesOf (fst added) (snd added) = (sitesOf p w ++ [settings.cleanSite site])%list
  /\ sitesOf (fst removed) (snd removed) = sitesOf p w
  /\ stored_blockedSites (storage (snd removed)) = Some (sitesOf p w).
Proof.
  intros Hne Hnew added removed.
  destruct (addSite_cases site p w) as [[[E | Hin] _] | (_ & _ & p' & E)];
    [contradiction | contradiction |].
  unfold removed, added. rewrite E. cbn [fst snd]. rewrite sitesOf_stored.
  split; [reflexivity |].
  destruct (removeSite_sites (settings.cleanSite site) p'
              (storage_set_setting
                 (BlockedSites (sitesOf p w ++ [settings.cleanSite site])) w))
    as [_ Hin].
  rewrite sitesOf_stored in Hin.
  rewrite Hin by (apply in_or_app; right; now left).
  rewrite sitesOf_stored, (removeFirst_snoc _ _ Hnew). split; [reflexivity |].
  reflexivity.
Qed.

(** A site is added on a never-written storage and removed again: the six
    defaults of the page are stored. *)
Lemma add_then_remove_witness :
  let added := settings.addSite "news.example" settings.initialPage firstInstall in
  let removed := settings.removeSite "news.example" (fst added) (snd added) in
  "news.example" <> ""
  /\ ~ In (settings.cleanSite "news.example")
          (sitesOf settings.initialPage firstInstall)
  /\ sitesOf (fst removed) (snd removed) = sitesOf settings.initialPage firstInstall.
Proof.
  cbv zeta.
  assert (Hne : "news.example" <> "") by discriminate.
  assert (Hnew : ~ In (settings.cleanSite "news.example")
                      (sitesOf settings.initialPage firstInstall)).
  { cbn. intros H. repeat (destruct H as [H | H]; [discriminate |]). exact H. }
  destruct (add_then_remove "news.example" settings.initialPage firstInstall
              Hne Hnew) as (_ & Hback & _).
  split; [exact Hne |]. split; [exact Hnew | exact Hback].
Defined.

(** ** The settings page and the background script together *)

Lemma recomputed_site (w : World) (site : string) :
  shouldBlock w = true ->
  In site (blockedSites w) ->
  (exists i, In (subdomainRule site i) (recomputed w))
  /\ (exists i, In (bareRule site i) (recomputed w)).
Proof.
  intros Hb Hin. unfold recomputed, mapi. rewrite Hb. split.
  - destruct (mapi_from_In (fun s i => subdomainRule s (i + 1)) _ _ Hin 0)
      as [j Hj].
    eexists. apply in_or_app. left. exact Hj.
  - destruct (mapi_from_In
                (fun s i => bareRule s (Z.of_nat (length (blockedSites w)) + i + 1))
                _ _ Hin 0) as [j Hj].
    eexists. apply in_or_app. right. exact Hj.
Qed.

(** X20.  [addSite] tests the input for emptiness before it is cleaned, not
    after: an input that is not empty but cleans to the empty string (a bare
    scheme, or anything whose host part is empty) is stored as an empty
    site, and while blocking is on the background script then installs the
    rules with the patterns of an empty host. *)
Theorem addSite_stores_empty_site (site : string) (p : settings.Page) (w : World) :
  site <> "" ->
  settings.cleanSite site = "" ->
  ~ In "" (sitesOf p w) ->
  let w' := snd (settings.addSite site p w) in
  stored_blockedSites (storage w') = Some (sitesOf p w ++ [""])%list
  /\ (shouldBlock w = true ->
      exists i j,
        In (subdomainRule "" i) (dynamicRules (onChanged w'))
        /\ In (bareRule "" j) (dynamicRules (onChanged w'))
        /\ urlFilter (subdomainRule "" i) = "*://*./*"
        /\ urlFilter (bareRule "" j) = "*:///*").
Proof.
  intros Hne Hclean Hnew w'.
  destruct (addSite_cases site p w) as [[[E | Hin] _] | (_ & _ & p' & E)].
  - contradiction.
  - rewrite Hclean in Hin. contradiction.
  - unfold w'. rewrite E, Hclean. cbn [snd]. split; [reflexivity |].
    intros Hb. unfold onChanged. rewrite updateBlockingRules_rules.
    set (w1 := storage_set_setting (BlockedSites (sitesOf p w ++ [""])) w).
    assert (Hb1 : shouldBlock w1 = true) by exact Hb.
    assert (Hin : In "" (blockedSites w1)).
    { unfold blockedSites, w1. cbn. apply in_or_app. right. now left. }
    destruct (recomputed_site w1 "" Hb1 Hin) as [[i Hi] [j Hj]].
    exists i, j. repeat split; assumption.
Qed.

(** The input "https://" during the work session started at 10000. *)
Lemma addSite_stores_empty_site_witness :
  let w' := snd (settings.addSite "https://" settings.initialPage runningWork) in
  "https://" <> ""
  /\ settings.cleanSite "https://" = ""
  /\ ~ In "" (sitesOf settings.initialPage runningWork)
  /\ stored_blockedSites (storage w')
     = Some [ "facebook.com"; "instagram.com"; "reddit.com"; "tiktok.com";
              "x.com"; "youtube.com"; "" ]
  /\ length (dynamicRules (onChanged w')) = 14%nat.
Proof.
  cbv zeta.
  assert (Hne : "https://" <> "") by discriminate.
  assert (Hnew : ~ In "" (sitesOf settings.initialPage runningWork)).
  { cbn. intros H. repeat (destruct H as [H | H]; [discriminate |]). exact H. }
  destruct (addSite_stores_empty_site "https://" settings.initialPage runningWork
              Hne eq_refl Hnew) as [Hstored _].
  split; [exact Hne |]. split; [reflexivity |]. split; [exact Hnew |].
  split; [exact Hstored |]. vm_compute. reflexivity.
Defined.

Lemma removeFirst_others (x s : string) (l : list string) :
  s <> x -> (In s (removeFirst x l) <-> In s l).
Proof.
  intros Hs. induction l as [| y l IH]; [tauto |]. cbn.
  destruct (String.eqb_spec y x) as [-> | _].
  - split; [now right | intros [E | H]; [congruence | exact H]].
  - cbn. rewrite IH. tauto.
Qed.

(** X21.  Editing the list on the settings page never changes which other
    sites the background script blocks, also on first use, when the page
    falls back on its own default array (the same six sites as the default
    of the background script, in another order): after [addSite] the sites
    blocked are those blocked before and the cleaned site, and after
    [removeSite] every other site is blocked exactly if it was before. *)
Theorem page_edits_keep_other_sites (site : string) (p : settings.Page) (w : World) :
  (stored_blockedSites (storage w) = None ->
   settings.DEFAULT_BLOCKED_SITES p = settings.DEFAULT_BLOCKED_SITES_literal) ->
  let added := snd (settings.addSite site p w) in
  let removed := snd (settings.removeSite site p w) in
  (forall s, In s (blockedSites added) ->
             In s (blockedSites w) \/ (site <> "" /\ s = settings.cleanSite site))
  /\ (forall s, In s (blockedSites w) -> In s (blockedSites added))
  /\ (site <> "" -> In (settings.cleanSite site) (blockedSites added))
  /\ (forall s, s <> site -> (In s (blockedSites removed) <-> In s (blockedSites w))).
Proof.
  intros Hdef added removed.
  assert (Hsame : forall s, In s (sitesOf p w) <-> In s (blockedSites w)).
  { intros s0. unfold sitesOf, blockedSites.
    destruct (stored_blockedSites (storage w)) as [sites |]; [tauto |].
    rewrite (Hdef eq_refl). cbn. tauto. }
  assert (Hstored : forall sites,
             blockedSites (storage_set_setting (BlockedSites sites) w) = sites)
    by reflexivity.
  assert (Hadd : blockedSites added = blockedSites w /\ (site = "" \/ In (settings.cleanSite site) (sitesOf p w))
                 \/ site <> "" /\ blockedSites added = (sitesOf p w ++ [settings.cleanSite site])%list).
  { unfold added.
    destruct (addSite_cases site p w) as [[Hno E] | (Hne & _ & p' & E)];
      rewrite E; cbn [snd]; [left; now split | right; split; [exact Hne | apply Hstored]]. }
  split; [| split; [| split]].
  - intros s0 Hin. destruct Hadd as [[E _] | [Hne E]]; rewrite E in Hin.
    + now left.
    + apply in_app_or in Hin. destruct Hin as [Hin | [<- | []]].
      * left. now apply Hsame.
      * right. now split.
  - intros s0 Hin. destruct Hadd as [[E _] | [Hne E]]; rewrite E.
    + exact Hin.
    + apply in_or_app. left. now apply Hsame.
  - intros Hne. destruct Hadd as [[E [He | Hin]] | [_ E]]; rewrite E.
    + contradiction.
    + now apply Hsame.
    + apply in_or_app. right. now left.
  - intros s0 Hs. unfold removed.
    destruct (removeSite_sites site p w) as [Hno Hin].
    destruct (in_dec string_dec site (sitesOf p w)) as [H | H].
    + rewrite (Hin H), Hstored, removeFirst_others by exact Hs. apply Hsame.
    + rewrite (Hno H). cbn [snd]. tauto.
Qed.

(** On a never-written storage a site is added, or "x.com" removed: the
    other default sites of the background script stay blocked. *)
Lemma page_edits_keep_other_sites_witness :
  (stored_blockedSites (storage firstInstall) = None ->
   settings.DEFAULT_BLOCKED_SITES settings.initialPage
   = settings.DEFAULT_BLOCKED_SITES_literal)
  /\ In "tiktok.com"
        (blockedSites (snd (settings.addSite "news.example" settings.initialPage
                                             firstInstall)))
  /\ In "news.example"
        (blockedSites (snd (settings.addSite "news.example" settings.initialPage
                                             firstInstall)))
  /\ In "tiktok.com"
        (blockedSites (snd (settings.removeSite "x.com" settings.initialPage
                                                firstInstall)))
  /\ ~ In "x.com"
        (blockedSites (snd (settings.removeSite "x.com" settings.initialPage
                                                firstInstall))).
Proof.
  assert (Hdef : stored_blockedSites (storage firstInstall) = None ->
                 settings.DEFAULT_BLOCKED_SITES settings.initialPage
                 = settings.DEFAULT_BLOCKED_SITES_literal) by reflexivity.
  destruct (page_edits_keep_other_sites "news.example" settings.initialPage
              firstInstall Hdef) as (_ & Hkeep & Hnew & _).
  destruct (page_edits_keep_other_sites "x.com" settings.initialPage
              firstInstall Hdef) as (_ & _ & _ & Hrem).
  assert (Hne : "news.example" <> "") by discriminate.
  assert (Ht : In "tiktok.com" (blockedSites firstInstall)) by (cbn; tauto).
  split; [exact Hdef |]. split; [exact (Hkeep _ Ht) |].
  split; [exact (Hnew Hne) |].
  split.
  - apply (Hrem "tiktok.com"); [discriminate | exact Ht].
  - vm_compute. intros H. repeat (destruct H as [H | H]; [discriminate |]).
    exact H.
Defined.

(** X22.  A site added while the background script is blocking is blocked
    at once: after the storage change is handled, the rule set has two rules
    for each site the page listed and two for the new one, among them the
    any-subdomain rule and the bare-domain rule of the cleaned site; the
    timer is not touched. *)
Theorem addSite_blocks_at_once (site : string) (p : settings.Page) (w : World) :
  site <> "" ->
  ~ In (settings.cleanSite site) (sitesOf p w) ->
  shouldBlock w = true ->
  let w' := onChanged (snd (settings.addSite site p w)) in
  length (dynamicRules w') = (2 * length (sitesOf p w) + 2)%nat
  /\ (forall s, In s (settings.cleanSite site :: sitesOf p w) ->
                (exists i, In (subdomainRule s i) (dynamicRules w'))
                /\ (exists i, In (bareRule s i) (dynamicRules w')))
  /\ timerState w' = timerState w.
Proof.
  intros Hne Hnew Hb w'.
  destruct (addSite_cases site p w) as [[[E | Hin] _] | (_ & _ & p' & E)];
    [contradiction | contradiction |].
  unfold w', onChanged. rewrite E. cbn [snd].
  rewrite updateBlockingRules_rules, updateBlockingRules_timerState.
  set (w1 := storage_set_setting
               (BlockedSites (sitesOf p w ++ [settings.cleanSite site])) w).
  assert (Hb1 : shouldBlock w1 = true) by exact Hb.
  assert (Hsites : blockedSites w1 = (sitesOf p w ++ [settings.cleanSite site])%list)
    by reflexivity.
  split; [| split; [| reflexivity]].
  - unfold recomputed, mapi. rewrite Hb1, length_app, !mapi_from_length, Hsites,
      length_app. cbn [length]. lia.
  - intros s Hs. apply recomputed_site; [exact Hb1 |]. rewrite Hsites.
    apply in_or_app. destruct Hs as [<- | Hs]; [right; now left | now left].
Qed.

(** A site is added during the work session started at 10000. *)
Lemma addSite_blocks_at_once_witness :
  let w' := onChanged (snd (settings.addSite "https://www.news.example/today"
                                             settings.initialPage runningWork)) in
  shouldBlock runningWork = true
  /\ length (dynamicRules w') = 14%nat
  /\ exists i, In (bareRule "news.example" i) (dynamicRules w').
Proof.
  cbv zeta.
  assert (Hne : "https://www.news.example/today" <> "") by discriminate.
  assert (Hnew : ~ In (settings.cleanSite "https://www.news.example/today")
                      (sitesOf settings.initialPage runningWork)).
  { vm_compute. intros H. repeat (destruct H as [H | H]; [discriminate |]).
    exact H. }
  assert (Hb : shouldBlock runningWork = true) by (vm_compute; reflexivity).
  destruct (addSite_blocks_at_once "https://www.news.example/today"
              settings.initialPage runningWork Hne Hnew Hb) as (Hlen & Hrules & _).
  split; [exact Hb |]. split.
  - rewrite Hlen. vm_compute. reflexivity.
  - apply (Hrules "news.example"). now left.
Defined.

(** * Properties of the popup, the blocked page and the dashboard *)

Lemma countdownReadsBack_below_6000 :
  forallb countdownReadsBack (map Z.of_nat (seq 0 (Z.to_nat 6000))) = true.
Proof.
  vm_compute. reflexivity.
Qed.

(** X23.  For a time remaining from 0 to 5999 seconds the popup shows
    minutes and seconds with two characters each, and the two texts read as
    decimal numbers give back the time remaining, the seconds being below
    60; exactly one of the Start and Pause buttons is shown; and the blocked
    page shows the same two texts around a colon. *)
Theorem countdown_reads_back (s : TimerState) (z : Z) :
  timeRemaining s = Int z ->
  0 <= z < 6000 ->
  exists d m sec,
    popup.updateDisplay (Some s) = Some d
    /\ String.length (popup.minutes_textContent d) = 2%nat
    /\ String.length (popup.seconds_textContent d) = 2%nat
    /\ decimal (popup.minutes_textContent d) = Some m
    /\ decimal (popup.seconds_textContent d) = Some sec
    /\ 0 <= sec < 60
    /\ 60 * m + sec = z
    /\ popup.startBtn_shown d = negb (popup.pauseBtn_shown d)
    /\ popup.pauseBtn_shown d = isRunning s
    /\ blocked.updateTimer (timeRemaining s)
       = (popup.minutes_textContent d ++ ":" ++ popup.seconds_textContent d)%string.
Proof.
  intros Hz Hrange.
  assert (Hok : countdownReadsBack z = true).
  { pose proof countdownReadsBack_below_6000 as H.
    rewrite forallb_forall in H. apply H. apply in_map_iff.
    exists (Z.to_nat z). split; [lia |]. apply in_seq. lia. }
  unfold countdownReadsBack in Hok.
  apply andb_true_iff in Hok. destruct Hok as [Hlen Hdec].
  apply andb_true_iff in Hlen. destruct Hlen as [Hm Hs].
  apply Nat.eqb_eq in Hm, Hs.
  destruct (decimal (padStart_2_0 (String_of_num (floor_div_60 (Int z)))))
    as [a |] eqn:Ea; [| discriminate].
  destruct (decimal (padStart_2_0 (String_of_num (rem_60 (Int z)))))
    as [b |] eqn:Eb; [| discriminate].
  apply andb_true_iff in Hdec. destruct Hdec as [Hb Hsum].
  apply andb_true_iff in Hb. destruct Hb as [Hb0 Hb60].
  apply Z.leb_le in Hb0. apply Z.ltb_lt in Hb60. apply Z.eqb_eq in Hsum.
  unfold popup.updateDisplay, blocked.updateTimer. rewrite Hz.
  eexists. exists a, b. split; [reflexivity |].
  cbn [popup.minutes_textContent popup.seconds_textContent
         popup.startBtn_shown popup.pauseBtn_shown].
  repeat (split; [first [assumption | reflexivity | lia] |]). reflexivity.
Qed.

(** The display of 1497 seconds: "24" and "57". *)
Lemma countdown_reads_back_witness :
  timeRemaining (timerState pausedWork) = Int 1497
  /\ option_map popup.minutes_textContent
       (popup.updateDisplay (Some (timerState pausedWork))) = Some "24"
  /\ option_map popup.seconds_textContent
       (popup.updateDisplay (Some (timerState pausedWork))) = Some "57"
  /\ blocked.updateTimer (Int 1497) = "24:57".
Proof.
  assert (Hz : timeRemaining (timerState pausedWork) = Int 1497)
    by (vm_compute; reflexivity).
  assert (Hrange : 0 <= 1497 < 6000) by lia.
  destruct (countdown_reads_back (timerState pausedWork) 1497 Hz Hrange)
    as (d & m & sec & Hd & _).
  split; [exact Hz |]. rewrite Hd. cbn [option_map].
  injection Hd as <-. repeat split.
Defined.

(** X24.  The blocked page is only reached while a session runs, as long as
    no RESET_TIMER is sent and the worker stays alive: whenever a rule is
    installed the timer is running, and the page shows the countdown and
    not the text "No active session". *)
Theorem blocked_page_shows_countdown (events : list (Z * Event)) (now : Z) :
  Forall (fun te => routineNoReset (snd te)) events ->
  let w := run events firstInstall in
  dynamicRules w <> [] ->
  isRunning (timerState w) = true
  /\ blocked.onState (snd (onMessage now (request.mk "GET_STATE" "") w))
     = blocked.updateTimer (timeRemaining (timerState w)).
Proof.
  intros Hall w Hrules.
  assert (HR : dynamicRules w = recomputed w).
  { apply (run_preserves (fun w => dynamicRules w = recomputed w) routineNoReset);
      [| exact Hall | reflexivity].
    intros t e w0. apply handle_rules_follow_policy. }
  assert (Hrun : isRunning (timerState w) = true).
  { destruct (isRunning (timerState w)) eqn:E; [reflexivity |].
    exfalso. apply Hrules. rewrite HR. now apply recomputed_stopped. }
  split; [exact Hrun |].
  unfold onMessage. cbn [request.action String.eqb Ascii.eqb Bool.eqb snd].
  unfold blocked.onState. now rewrite Hrun.
Qed.

(** A site is opened two ticks into a work session. *)
Lemma blocked_page_shows_countdown_witness :
  let events := (1000, Message (request.mk "START_TIMER" "")) :: ticks 1000 2 in
  Forall (fun te => routineNoReset (snd te)) events
  /\ dynamicRules (run events firstInstall) <> []
  /\ blocked.onState (snd (onMessage 3500 (request.mk "GET_STATE" "")
                                     (run events firstInstall)))
     = "24:58".
Proof.
  cbv zeta.
  set (events := (1000, Message (request.mk "START_TIMER" "")) :: ticks 1000 2).
  assert (Hall : Forall (fun te => routineNoReset (snd te)) events).
  { repeat (apply Forall_cons; [cbn; first [exact I | discriminate] |]).
    apply Forall_nil. }
  assert (Hrules : dynamicRules (run events firstInstall) <> [])
    by (vm_compute; discriminate).
  destruct (blocked_page_shows_countdown events 3500 Hall Hrules) as [_ Htext].
  split; [exact Hall |]. split; [exact Hrules |].
  rewrite Htext. vm_compute. reflexivity.
Defined.

(** ** The chart of session types *)

Lemma hasOwnProperty_increment (obj : list (string * Z)) (key k : string) :
  dashboard.hasOwnProperty (dashboard.increment obj key) k
  = dashboard.hasOwnProperty obj k.
Proof.
  unfold dashboard.hasOwnProperty.
  induction obj as [| [k0 v] rest IH]; [reflexivity |].
  cbn [dashboard.increment]. destruct (String.eqb k0 key); cbn [own].
  - destruct (String.eqb k0 k); reflexivity.
  - destruct (String.eqb k0 k); [reflexivity | exact IH].
Qed.

(** What the loop does to a count, for an object with distinct keys. *)
Lemma own_increment (obj : list (string * Z)) (key k : string) :
  NoDup (map fst obj) ->
  own (dashboard.increment obj key) k
  = match own obj k with
    | Some v => Some (if String.eqb k key then v + 1 else v)
    | None => None
    end.
Proof.
  induction obj as [| [k0 v] rest IH]; intros Hnd; [reflexivity |].
  inversion Hnd as [| x l Hk0 Hrest]; subst.
  cbn [dashboard.increment].
  destruct (String.eqb k0 key) eqn:E0; cbn [own].
  - apply String.eqb_eq in E0. subst k0.
    destruct (String.eqb key k) eqn:E.
    + rewrite String.eqb_sym in E. now rewrite E.
    + destruct (own rest k) as [v' |]; [| reflexivity].
      rewrite String.eqb_sym in E. now rewrite E.
  - destruct (String.eqb k0 k) eqn:E.
    + apply String.eqb_eq in E. subst k0. now rewrite E0.
    + now apply IH.
Qed.

Lemma map_fst_increment (obj : list (string * Z)) (key : string) :
  map fst (dashboard.increment obj key) = map fst obj.
Proof.
  induction obj as [| [k0 v] rest IH]; [reflexivity |].
  cbn [dashboard.increment]. destruct (String.eqb k0 key); cbn; [reflexivity |].
  now rewrite IH.
Qed.

Lemma countTypes_own (sessions : list SessionData) :
  forall (obj : list (string * Z)) (k : string) (v : Z),
    NoDup (map fst obj) ->
    own obj k = Some v ->
    own (dashboard.countTypes sessions obj) k = Some (v + sessionsOfType k sessions).
Proof.
  unfold sessionsOfType.
  induction sessions as [| session rest IH]; intros obj k v Hnd Hk.
  - cbn. rewrite Hk. f_equal. lia.
  - cbn [dashboard.countTypes filter].
    destruct (dashboard.hasOwnProperty obj (session_type session)) eqn:Hown.
    + rewrite (IH _ k (if String.eqb k (session_type session) then v + 1 else v)).
      * rewrite (String.eqb_sym (session_type session) k).
        destruct (String.eqb k (session_type session)); cbn [length]; f_equal; lia.
      * now rewrite map_fst_increment.
      * rewrite own_increment by exact Hnd. now rewrite Hk.
    + rewrite (IH obj k v Hnd Hk).
      destruct (String.eqb_spec (session_type session) k) as [E | _];
        [| reflexivity].
      exfalso. unfold dashboard.hasOwnProperty in Hown. rewrite E, Hk in Hown.
      discriminate.
Qed.

(** X25.  The chart of session types shows, for each of the three types,
    the number of sessions of that type.  Sessions of any other type,
    including the names of members every object inherits, are left out and
    disturb no count, so the three counts add up to the number of sessions
    whose type is one of the three. *)
Theorem chart_counts_sessions_by_type (sessions : list SessionData) :
  dashboard.createSessionTypesChart sessions
  = [ Own (sessionsOfType "pomodoro" sessions);
      Own (sessionsOfType "shortBreak" sessions);
      Own (sessionsOfType "longBreak" sessions) ]
  /\ sessionsOfType "pomodoro" sessions + sessionsOfType "shortBreak" sessions
     + sessionsOfType "longBreak" sessions
     = Z.of_nat (length (filter (fun s => dashboard.hasOwnProperty
                                            dashboard.typeCounts_initial
                                            (session_type s)) sessions))
  /\ sessionsOfType "pomodoro" sessions + sessionsOfType "shortBreak" sessions
     + sessionsOfType "longBreak" sessions <= Z.of_nat (length sessions).
Proof.
  assert (Hnd : NoDup (map fst dashboard.typeCounts_initial)).
  { cbn. repeat (constructor; [cbn; intros H;
                               repeat (destruct H as [H | H]; [discriminate |]);
                               exact H |]).
    constructor. }
  assert (Hget : forall k, own dashboard.typeCounts_initial k = Some 0 ->
                   get (dashboard.countTypes sessions dashboard.typeCounts_initial) k
                   = Own (sessionsOfType k sessions)).
  { intros k Hk. unfold get.
    now rewrite (countTypes_own sessions _ k 0 Hnd Hk). }
  assert (Hsum : sessionsOfType "pomodoro" sessions
                 + sessionsOfType "shortBreak" sessions
                 + sessionsOfType "longBreak" sessions
                 = Z.of_nat (length (filter (fun s => dashboard.hasOwnProperty
                                                        dashboard.typeCounts_initial
                                                        (session_type s)) sessions))).
  { assert (Hpt : forall t,
               dashboard.hasOwnProperty dashboard.typeCounts_initial t
               = (String.eqb t "pomodoro" || String.eqb t "shortBreak"
                  || String.eqb t "longBreak")%bool).
    { intros t. unfold dashboard.hasOwnProperty, dashboard.typeCounts_initial.
      cbn [own].
      rewrite (String.eqb_sym "pomodoro"), (String.eqb_sym "shortBreak"),
        (String.eqb_sym "longBreak").
      destruct (String.eqb t "pomodoro"), (String.eqb t "shortBreak"),
        (String.eqb t "longBreak"); reflexivity. }
    unfold sessionsOfType. clear Hget.
    induction sessions as [| s rest IH]; [reflexivity |].
    cbn [filter]. rewrite Hpt.
    destruct (String.eqb_spec (session_type s) "pomodoro") as [E1 | _];
      destruct (String.eqb_spec (session_type s) "shortBreak") as [E2 | _];
      destruct (String.eqb_spec (session_type s) "longBreak") as [E3 | _];
      try (exfalso; congruence); cbn [orb length]; lia. }
  split; [| split; [exact Hsum |]].
  - unfold dashboard.createSessionTypesChart.
    rewrite !Hget by reflexivity. reflexivity.
  - rewrite Hsum. pose proof (filter_length_le
                                (fun s => dashboard.hasOwnProperty
                                            dashboard.typeCounts_initial
                                            (session_type s)) sessions).
    lia.
Qed.
